(** * Swap-transaction analysis of web3-ethereum-defi: a shallow embedding

    The development follows three source modules:

    - [eth_defi/uniswap_v3/constant.py]        (module [Constant]),
    - [eth_defi/swap/analysis.py]              (module [Swap], the dispatcher),
    - [eth_defi/uniswap_universal/analysis.py] (module [Universal]).

    Python exceptions are values of [exn]; a call that may raise returns a
    [result].  Dictionaries with free-form keys are [gmap string _];
    dictionaries with a fixed set of keys are records.  Python integers
    are [Z]; Python floats are the binary64 values of the IEEE 754
    specification in the standard library ([spec_float] with [prec = 53]
    and [emax = 1024]). *)

From Stdlib Require Import ZArith Floats.
From stdpp Require Import gmap strings list.

Local Open Scope string_scope.
Local Open Scope Z_scope.

(** ** Exceptions and results *)

(** The exceptions the analysed code raises itself, each with the argument
    it is built from; [OtherError] stands for whatever else a collaborator
    raises (network faults, decoding faults, ...). *)
Inductive exn : Type :=
| ValueError (msg : string)
| NotImplementedError (msg : string)
| AssertionError (msg : string)
| KeyError (key : string)
| IndexError (msg : string)
| OverflowError (msg : string)
| OtherError (name msg : string).

Inductive result (A : Type) : Type :=
| Return (a : A)
| Raise (e : exn).

Arguments Return {A} a.
Arguments Raise {A} e.

(** Sequencing: an exception raised by [m] skips the rest.  With the
    instances below, [x ← m; k] is [bind k m]. *)
Definition bind {A B : Type} (k : A -> result B) (m : result A) : result B :=
  match m with
  | Return a => k a
  | Raise e => Raise e
  end.

#[export] Instance result_ret : MRet result := @Return.
#[export] Instance result_bind : MBind result := @bind.

(** [assert cond, msg], with assertions enabled (the interpreter's
    default) *)
Definition py_assert (cond : bool) (msg : string) : result unit :=
  if cond then Return tt else Raise (AssertionError msg).

(** [d[key]] on a dictionary *)
Definition getitem {V : Type} (d : gmap string V) (key : string) : result V :=
  match d !! key with
  | Some v => Return v
  | None => Raise (KeyError key)
  end.

(** [l[0]] and [l[-1]] on a list *)
Definition index_first {A : Type} (l : list A) : result A :=
  match l with
  | x :: _ => Return x
  | [] => Raise (IndexError "list index out of range")
  end.

Definition index_last {A : Type} (l : list A) : result A :=
  match last l with
  | Some x => Return x
  | None => Raise (IndexError "list index out of range")
  end.

(** [len(t)] of a two-element tuple *)
Definition tuple_len {A B : Type} (t : A * B) : nat := 2.

(** ** Transactions, receipts and decoded values *)

(** The transaction dictionary; the code reads [tx["to"]] and [tx["input"]]. *)
Record Tx : Type := {
  to : string;
  input : string;
}.

(** The receipt dictionary.  [gasUsed] and [status] are read with
    [tx_receipt[...]]; [effectiveGasPrice] is read with
    [tx_receipt.get("effectiveGasPrice", 0)], so it may be absent. *)
Record TxReceipt : Type := {
  effectiveGasPrice : option Z;
  gasUsed : Z;
  status : Z;
}.

(** A value inside the argument dictionary of a decoded router command. *)
Inductive pyval : Type :=
| PyInt (z : Z)
| PyBytes (b : string)
| PyStr (s : string)
| PyBool (b : bool).

(** Python's [Decimal]: a coefficient and a decimal exponent. *)
Record Decimal : Type := {
  coefficient : Z;
  exponent : Z;
}.

(** ** eth_defi.trade: the two outcome records *)

(** Modelled from the spec: [eth_defi.trade] is not among the sources.
    [TradeFail] carries the gas used, the effective gas price and an
    optional revert reason, as the constructor call
    [TradeFail(gas_used, effective_gas_price, revert_reason=reason)] fills
    them.  It has a module of its own because both records have a
    [gas_used] and an [effective_gas_price]. *)
Module Fail.

Record TradeFail : Type := {
  gas_used : Z;
  effective_gas_price : Z;
  revert_reason : option string;
}.

End Fail.

(** Modelled from the spec: [TradeSuccess], with the fields of the data
    model in the order of the constructor call at the end of
    [get_v3_by_event]. *)
Record TradeSuccess : Type := {
  gas_used : Z;
  effective_gas_price : Z;
  path : list string;
  amount_in : Z;
  amount_out_min : pyval;
  amount_out : Z;
  price : Decimal;
  amount_in_decimals : N;
  amount_out_decimals : N;
  token0 : string;
  token1 : string;
  lp_fee_paid : spec_float;
}.

(** [Union[TradeSuccess, TradeFail]] *)
Inductive trade : Type :=
| Success (s : TradeSuccess)
| Fail (f : Fail.TradeFail).

(** ** Collaborators reached through the [web3] handle *)

(** A decoded log entry ([web3.types.EventData]): the code reads the keys
    [event], [address] and [args]; the arguments of the event it reads
    ([amount0], [amount1], [tick]) are ABI integers. *)
Module Event.

Record EventData : Type := {
  event : string;
  address : string;
  args : gmap string Z;
}.

End Event.

(** Modelled from the spec: [eth_defi.uniswap_v3.pool.PoolDetails] is not
    among the sources.  The code reads [token0], [token1] and [fee] and
    calls [convert_price_to_human]; by the spec these are the pool's two
    token addresses, its fee rate (a Python float, here a binary64 value of
    the IEEE 754 specification) and a conversion from a tick to a decimal
    price. *)
Module Pool.

Record PoolDetails : Type := {
  token0 : string;
  token1 : string;
  fee : spec_float;
  convert_price_to_human : Z -> result Decimal;
}.

End Pool.

(** Modelled from the spec: [eth_defi.token.TokenDetails] is not among
    the sources.  The code reads [decimals], the decimal precision of the
    token: the [uint8] an ERC-20 contract answers. *)
Module Token.

Record TokenDetails : Type := {
  decimals : N;
}.

End Token.

(** The chain-data provider, as the answers it gives to the four
    collaborators that take the [web3] handle. *)
Record Web3 : Type := {
  revert_reasons : string -> option string;
  get_tx_events : string -> result (list (Event.EventData * gmap string Z));
  fetch_pool_details : string -> result Pool.PoolDetails;
  fetch_erc20_details : string -> result Token.TokenDetails;
}.

(** Modelled from the spec: [eth_defi.revert_reason] is not among the
    sources.  The revert-reason fetcher is best-effort: it answers the
    decoded revert string, or nothing when the reason cannot be obtained,
    and raises no error of its own. *)
Definition fetch_transaction_revert_reason (web3 : Web3) (tx_hash : string)
  : option string :=
  revert_reasons web3 tx_hash.

(** ** eth_defi/uniswap_v3/constant.py *)

Module Constant.

(** One entry of the table: a dictionary with the keys [chain],
    [address] and [name]. *)
Record router : Type := {
  chain : string;
  address : string;
  name : string;
}.

Definition dex_router : gmap string (list router) :=
  {[ "base" :=
       [ {| chain := "base";
            address := "0x19ceead7105607cd444f5ad10dd51356436095a1";
            name := "Odos:Router V2" |} ] ]}.

(** The [for router in ...] loop with its early [return True]; falling
    out of the loop is [return False]. *)
Fixpoint router_loop (routers : list router) (addr : string) : bool :=
  match routers with
  | [] => false
  | router :: rest =>
      if String.eqb (address router) addr then true
      else router_loop rest addr
  end.

Definition contains_v3_router (chain address : string) : result bool :=
  routers ← getitem dex_router chain;
  Return (router_loop routers address).

End Constant.

(** ** eth_defi/swap/analysis.py: the dispatcher *)

Module Swap.

(** What the dispatcher imports from modules that are not among the
    sources: the two other table checks, the two deployment mocks and the
    two per-protocol analyses.  Any of them may raise. *)
Record Imports : Type := {
  V2Deployment : Type;
  V3Deployment : Type;
  contains_v2_router : string -> string -> result bool;
  contains_universal_router : string -> string -> result bool;
  v2_analysis : Web3 -> string -> result V2Deployment;
  v3_analysis : Web3 -> string -> result V3Deployment;
  v2_analyse_trade_by_receipt :
    Web3 -> V2Deployment -> Tx -> string -> TxReceipt -> result trade;
  v3_analyse_trade_by_receipt :
    Web3 -> V3Deployment -> Tx -> string -> TxReceipt -> result trade;
}.

Definition analyse_trade_by_receipt (imp : Imports) (web3 : Web3)
    (chain : string) (tx : Tx) (tx_hash : string) (tx_receipt : TxReceipt)
  : result trade :=
  let router_addr := to tx in
  is_v2 ← contains_v2_router imp chain router_addr;
  if is_v2 : bool then
    v2 ← v2_analysis imp web3 router_addr;
    v2_analyse_trade_by_receipt imp web3 v2 tx tx_hash tx_receipt
  else
    is_v3 ← Constant.contains_v3_router chain router_addr;
    if is_v3 : bool then
      v3 ← v3_analysis imp web3 router_addr;
      v3_analyse_trade_by_receipt imp web3 v3 tx tx_hash tx_receipt
    else
      is_universal ← contains_universal_router imp chain router_addr;
      if is_universal : bool then
        Raise (NotImplementedError "Universal router not implemented")
      else
        Raise (ValueError ("Unknown router " +:+ router_addr)).

End Swap.

(** ** eth_defi/uniswap_universal/analysis.py *)

Module Universal.

(** A decoded router command carries a function object; the code reads its
    [fn_name] attribute. *)
Record UrFunction : Type := {
  fn_name : string;
}.

(** The module-level [codec = RouterCodec()] of the external decoder
    library, as the two calls made on it: [decode_inputs data] is
    [codec.decode.function_input(data)[1]["inputs"]], the ordered list of
    (function, argument dictionary) pairs, and [v3_path] is
    [codec.decode.v3_path]. *)
Record RouterCodec : Type := {
  decode_inputs : string -> result (list (UrFunction * gmap string pyval));
  v3_path : string -> pyval -> result (list string);
}.

(** [int -> float] as Python converts it: rounded to the nearest binary64
    value, ties to even; an integer that rounds beyond the largest finite
    value raises. *)
Definition float_of_int (z : Z) : result spec_float :=
  match binary_normalize prec emax z 0 false with
  | S754_infinity _ => Raise (OverflowError "int too large to convert to float")
  | f => Return f
  end.

(** [float(amount_in * pool.fee / 10 ** decimals)]: the product converts
    [amount_in] to a float, the true division converts the integer power;
    [float] of a float changes nothing. *)
Definition lp_fee (amount_in : Z) (fee : spec_float) (decimals : N)
  : result spec_float :=
  a ← float_of_int amount_in;
  let product := SF64mul a fee in
  d ← float_of_int (10 ^ Z.of_N decimals);
  Return (SF64div product d).

Definition get_v3_by_event (web3 : Web3) (effective_gas_price gas_used : Z)
    (path : list string) (amount_out_min : pyval) (event : Event.EventData)
  : result TradeSuccess :=
  let props := Event.args event in
  amount0 ← getitem props "amount0";
  amount1 ← getitem props "amount1";
  tick ← getitem props "tick";
  let pool_address := Event.address event in
  pool ← fetch_pool_details web3 pool_address;
  _ ← py_assert ((0 <? amount0)%Z && (amount1 <? 0)%Z
                 || (amount0 <? 0)%Z && (0 <? amount1)%Z)
                "Unsupported swap type";
  let amount_out := if (amount0 <? 0)%Z then amount0 else amount1 in
  _ ← py_assert (amount_out <? 0)%Z
                "amount out should be negative for uniswap v3";
  path_first ← index_first path;
  in_token_details ← fetch_erc20_details web3 path_first;
  path_last ← index_last path;
  out_token_details ← fetch_erc20_details web3 path_last;
  price ← Pool.convert_price_to_human pool tick;
  let amount_in := if (0 <? amount0)%Z then amount0 else amount1 in
  lp_fee_paid ← lp_fee amount_in (Pool.fee pool)
                       (Token.decimals in_token_details);
  Return {| gas_used := gas_used;
            effective_gas_price := effective_gas_price;
            path := path;
            amount_in := amount_in;
            amount_out_min := amount_out_min;
            amount_out := Z.abs amount_out;
            price := price;
            amount_in_decimals := Token.decimals in_token_details;
            amount_out_decimals := Token.decimals out_token_details;
            token0 := Pool.token0 pool;
            token1 := Pool.token1 pool;
            lp_fee_paid := lp_fee_paid |}.

(** The two [filter] predicates on decoded commands. *)
Definition is_v3_swap (x : UrFunction * gmap string pyval) : Prop :=
  fn_name x.1 ∈ ["V3_SWAP_EXACT_IN"; "V3_SWAP_EXACT_OUT"].

Definition is_v2_swap (x : UrFunction * gmap string pyval) : Prop :=
  fn_name x.1 ∈ ["V2_SWAP_EXACT_IN"; "V2_SWAP_EXACT_OUT"].

#[export] Instance is_v3_swap_dec x : Decision (is_v3_swap x).
Proof. unfold is_v3_swap. apply _. Defined.

#[export] Instance is_v2_swap_dec x : Decision (is_v2_swap x).
Proof. unfold is_v2_swap. apply _. Defined.

(** The [filter] predicate on events: [tuple_e[0]["event"] == "Swap"]. *)
Definition is_swap_event (tuple_e : Event.EventData * gmap string Z) : Prop :=
  Event.event tuple_e.1 = "Swap".

#[export] Instance is_swap_event_dec tuple_e : Decision (is_swap_event tuple_e).
Proof. unfold is_swap_event. apply _. Defined.

(** The text of the receipt inside the two assertion messages is the
    receipt's [repr]; the messages are modelled by their fixed prefix. *)
Definition no_swap_events_msg (tx_receipt : TxReceipt) : string :=
  "No swap events detected:".

Definition analyse_trade_by_receipt (codec : RouterCodec) (web3 : Web3)
    (tx : Tx) (tx_hash : string) (tx_receipt : TxReceipt) : result trade :=
  let effective_gas_price := default 0 (effectiveGasPrice tx_receipt) in
  let gas_used := gasUsed tx_receipt in
  if negb (status tx_receipt =? 1)%Z then
    let reason := fetch_transaction_revert_reason web3 tx_hash in
    Return (Fail {| Fail.gas_used := gas_used;
                    Fail.effective_gas_price := effective_gas_price;
                    Fail.revert_reason := reason |})
  else
    decoded_trx_input ← decode_inputs codec (input tx);
    let v3_swap_ops := filter is_v3_swap decoded_trx_input in
    let v2_swap_ops := filter is_v2_swap decoded_trx_input in
    if (length v3_swap_ops =? 0)%nat && (length v2_swap_ops =? 0)%nat then
      Raise (ValueError "No swap operation detected in the transaction")
    else if (1 <? length v3_swap_ops + length v2_swap_ops)%nat then
      Raise (ValueError "Multiple swap operations detected in the transaction")
    else if (length v2_swap_ops =? 1)%nat then
      Raise (NotImplementedError "Uniswap V2 trades are not supported yet")
    else
      v3_swap_op ← index_first v3_swap_ops;
      let fn_name := fn_name v3_swap_op.1 in
      first_op ← index_first decoded_trx_input;
      path_bytes ← getitem first_op.2 "path";
      path ← v3_path codec fn_name path_bytes;
      amount_out_min ← getitem first_op.2 "amountOutMin";
      events ← get_tx_events web3 tx_hash;
      _ ← py_assert (0 <? length events)%nat (no_swap_events_msg tx_receipt);
      events ← index_last (filter is_swap_event events);
      _ ← py_assert (0 <? tuple_len events)%nat (no_swap_events_msg tx_receipt);
      let event := events.1 in
      s ← get_v3_by_event web3 effective_gas_price gas_used path
                          amount_out_min event;
      Return (Success s).

End Universal.

(** ** Comparing binary64 values

    Python's [x >= 0] on a float [x]: true for both zeros, the positive
    finite values and positive infinity; false for NaN. *)
Definition nonneg_float (x : spec_float) : Prop :=
  SFleb (S754_zero false) x = true.

(** What [k] right shifts of [m0] have left: the quotient in [shr_m], and
    in the two flags how the remainder compares with one half. *)
Definition shifted (m0 k : Z) (mrs : shr_record) : Prop :=
  exists rem,
    0 <= rem < 2 ^ k /\
    0 <= shr_m mrs /\
    m0 = shr_m mrs * 2 ^ k + rem /\
    (shr_r mrs = true <-> 2 ^ k <= 2 * rem) /\
    (shr_s mrs = true <-> rem <> 0 /\ 2 * rem <> 2 ^ k).

(** The binary64 value nearest to a positive integer [z], ties to even:
    a mantissa [m] below [2 ^ 53] and an exponent [e] with [m * 2 ^ e]
    equal to [z] when [e] is not positive, and otherwise a full mantissa
    at most half a unit of [2 ^ e] away from [z], even when exactly half
    a unit away. *)
Definition nearest_binary64 (z : Z) (f : spec_float) : Prop :=
  exists m e,
    f = S754_finite false m e /\
    Zpos m < 2 ^ 53 /\
    (e <= 0 -> z * 2 ^ (- e) = Zpos m) /\
    (0 < e ->
     2 ^ 52 <= Zpos m /\
     2 * Z.abs (z - Zpos m * 2 ^ e) <= 2 ^ e /\
     (2 * Z.abs (z - Zpos m * 2 ^ e) = 2 ^ e -> Z.even (Zpos m) = true)).

(** ** The successful path of the universal analysis, in two phases

    The same statements as in [Universal.analyse_trade_by_receipt], cut
    where the source calls [get_tx_events]; [analyse_by_phases] below
    proves that the analysis is their composition. *)

Module Phases.

(** The four swap-kind command names the two filters look for. *)
Definition is_swap_kind (x : Universal.UrFunction * gmap string pyval) : Prop :=
  Universal.fn_name x.1 ∈ ["V3_SWAP_EXACT_IN"; "V3_SWAP_EXACT_OUT";
                           "V2_SWAP_EXACT_IN"; "V2_SWAP_EXACT_OUT"].

#[export] Instance is_swap_kind_dec x : Decision (is_swap_kind x).
Proof. unfold is_swap_kind. apply _. Defined.

(** From the decoding of the call input to [amount_out_min]: the route
    path and the minimum output amount. *)
Definition swap_parameters (codec : Universal.RouterCodec) (tx : Tx)
  : result (list string * pyval) :=
  decoded_trx_input ← Universal.decode_inputs codec (input tx);
  let v3_swap_ops := filter Universal.is_v3_swap decoded_trx_input in
  let v2_swap_ops := filter Universal.is_v2_swap decoded_trx_input in
  if (length v3_swap_ops =? 0)%nat && (length v2_swap_ops =? 0)%nat then
    Raise (ValueError "No swap operation detected in the transaction")
  else if (1 <? length v3_swap_ops + length v2_swap_ops)%nat then
    Raise (ValueError "Multiple swap operations detected in the transaction")
  else if (length v2_swap_ops =? 1)%nat then
    Raise (NotImplementedError "Uniswap V2 trades are not supported yet")
  else
    v3_swap_op ← index_first v3_swap_ops;
    let fn_name := Universal.fn_name v3_swap_op.1 in
    first_op ← index_first decoded_trx_input;
    path_bytes ← getitem first_op.2 "path";
    path ← Universal.v3_path codec fn_name path_bytes;
    amount_out_min ← getitem first_op.2 "amountOutMin";
    Return (path, amount_out_min).

(** From the first assertion on the event list to [event = events[0]]. *)
Definition select_swap_event (tx_receipt : TxReceipt)
    (events : list (Event.EventData * gmap string Z)) : result Event.EventData :=
  _ ← py_assert (0 <? length events)%nat (Universal.no_swap_events_msg tx_receipt);
  events ← index_last (filter Universal.is_swap_event events);
  _ ← py_assert (0 <? tuple_len events)%nat (Universal.no_swap_events_msg tx_receipt);
  Return events.1.

End Phases.

(** ** The two entry points by transaction hash *)

(** The [eth] attribute of the [web3] handle, as the answers of the two
    calls the entry points make on it. *)
Record Eth : Type := {
  get_transaction : string -> result Tx;
  get_transaction_receipt : string -> result TxReceipt;
}.

Module UniversalEntry.

Definition analyse_trade_by_hash (codec : Universal.RouterCodec) (eth : Eth)
    (web3 : Web3) (tx_hash : string) : result trade :=
  tx ← get_transaction eth tx_hash;
  tx_receipt ← get_transaction_receipt eth tx_hash;
  Universal.analyse_trade_by_receipt codec web3 tx tx_hash tx_receipt.

End UniversalEntry.

Module SwapEntry.

(** The hash argument is a [str] or already a [HexBytes]. *)
Inductive hash_arg : Type :=
| HashStr (s : string)
| HashBytes (b : string).

(** [hexbytes] is the constructor [HexBytes] of the external library on
    a [str]: the bytes the text spells, or an error. *)
Definition analyse_trade_by_hash (imp : Swap.Imports)
    (hexbytes : string -> result string) (eth : Eth) (web3 : Web3)
    (chain : string) (tx_hash : hash_arg) : result trade :=
  tx_hash ← match tx_hash with
            | HashStr s => hexbytes s
            | HashBytes b => Return b
            end;
  tx ← get_transaction eth tx_hash;
  tx_receipt ← get_transaction_receipt eth tx_hash;
  Swap.analyse_trade_by_receipt imp web3 chain tx tx_hash tx_receipt.

End SwapEntry.

(** * Sample data

    Concrete transactions, tables and provider answers on which the
    statements below are instantiated. *)

Module Samples.

(** A dispatcher environment whose v2 and universal tables are empty and
    whose per-protocol analyses report a failed trade. *)
Definition reported : trade :=
  Fail {| Fail.gas_used := 0; Fail.effective_gas_price := 0;
          Fail.revert_reason := None |}.

Definition imports (in_v2 in_universal : bool) : Swap.Imports :=
  {| Swap.V2Deployment := unit;
     Swap.V3Deployment := unit;
     Swap.contains_v2_router := fun _ _ => Return in_v2;
     Swap.contains_universal_router := fun _ _ => Return in_universal;
     Swap.v2_analysis := fun _ _ => Return tt;
     Swap.v3_analysis := fun _ _ => Return tt;
     Swap.v2_analyse_trade_by_receipt := fun _ _ _ _ _ => Return reported;
     Swap.v3_analyse_trade_by_receipt := fun _ _ _ _ _ => Return reported |}.

Definition odos : string := "0x19ceead7105607cd444f5ad10dd51356436095a1".

Definition other_address : string := "0x3fc91a3afd70395cd496c647d5a6cc9d4b2b7fad".

Definition tx_to (addr : string) : Tx := {| to := addr; input := "0x3593564c" |}.

Definition receipt (st : Z) : TxReceipt :=
  {| effectiveGasPrice := Some 1000000; gasUsed := 152000; status := st |}.

Definition tx_hash : string :=
  "0xe3e1a99274369608be9453084435f9d67464088c4cb10537ea952b0016a26245".

(** Decoded router commands: a v3 swap with its argument dictionary, a v2
    swap, and the wrapping command that often precedes a swap. *)
Definition swap_args (amount_out_min : Z) (route : string) : gmap string pyval :=
  {[ "recipient" := PyStr "0x0000000000000000000000000000000000000001";
     "amountIn" := PyInt 1000000000000000000;
     "amountOutMin" := PyInt amount_out_min;
     "path" := PyBytes route;
     "payerIsSender" := PyBool true ]}.

Definition wrap_args : gmap string pyval :=
  {[ "recipient" := PyStr "0x0000000000000000000000000000000000000002";
     "amountMin" := PyInt 1000000000000000000 ]}.

Definition v3_swap : Universal.UrFunction * gmap string pyval :=
  ({| Universal.fn_name := "V3_SWAP_EXACT_IN" |}, swap_args 1500 "weth-usdc").

Definition v2_swap : Universal.UrFunction * gmap string pyval :=
  ({| Universal.fn_name := "V2_SWAP_EXACT_IN" |}, swap_args 1400 "weth-dai").

Definition wrap_eth : Universal.UrFunction * gmap string pyval :=
  ({| Universal.fn_name := "WRAP_ETH" |}, wrap_args).

Definition weth : string := "0x4200000000000000000000000000000000000006".

Definition usdc : string := "0x833589fcd6edb6e08f4c7c32d4f71b54bda02913".

(** A codec that decodes every call input to [ops] and every route to
    WETH -> USDC. *)
Definition codec (ops : list (Universal.UrFunction * gmap string pyval))
  : Universal.RouterCodec :=
  {| Universal.decode_inputs := fun _ => Return ops;
     Universal.v3_path := fun _ _ => Return [weth; usdc] |}.

Definition pool : Pool.PoolDetails :=
  {| Pool.token0 := weth;
     Pool.token1 := usdc;
     Pool.fee := S754_finite false 4611686018427388 (-63);
     Pool.convert_price_to_human :=
       fun tick => Return {| coefficient := tick; exponent := 0 |} |}.

Definition log (name : string) (amount0 amount1 : Z)
  : Event.EventData * gmap string Z :=
  let arguments : gmap string Z :=
    {[ "amount0" := amount0; "amount1" := amount1; "tick" := (-201234) ]} in
  ({| Event.event := name;
      Event.address := "0xd0b53d9277642d899df5c87a3966a349a798f224";
      Event.args := arguments |}, arguments).

(** A provider that answers [events] for every transaction, the pool
    above for every pool address and 18 decimals for every token. *)
Definition provider (reason : option string)
    (events : list (Event.EventData * gmap string Z)) : Web3 :=
  {| revert_reasons := fun _ => reason;
     get_tx_events := fun _ => Return events;
     fetch_pool_details := fun _ => Return pool;
     fetch_erc20_details := fun _ => Return {| Token.decimals := 18 |} |}.

(** The record the analysis builds for a status-1 transaction with the
    single command [v3_swap] and the single event
    [log "Swap" (-1600) 1000000000000000000]. *)
Definition swapped : TradeSuccess :=
  {| gas_used := 152000;
     effective_gas_price := 1000000;
     path := [weth; usdc];
     amount_in := 1000000000000000000;
     amount_out_min := PyInt 1500;
     amount_out := 1600;
     price := {| coefficient := -201234; exponent := 0 |};
     amount_in_decimals := 18;
     amount_out_decimals := 18;
     token0 := weth;
     token1 := usdc;
     lp_fee_paid := S754_finite false 4611686018427388 (-63) |}.

End Samples.

(** Answers of [web3.eth] for the sample transaction: the same
    transaction and receipt for every hash. *)
Module EntrySamples.

Definition eth (st : Z) : Eth :=
  {| get_transaction := fun _ => Return (Samples.tx_to Samples.other_address);
     get_transaction_receipt := fun _ => Return (Samples.receipt st) |}.

End EntrySamples.

(** Further sample data: a dispatcher environment whose two analyses
    answer differently, and a swap of USDC (6 decimals) for WETH. *)
Module MoreSamples.

Definition reported_by (gas : Z) : trade :=
  Fail {| Fail.gas_used := gas; Fail.effective_gas_price := 0;
          Fail.revert_reason := None |}.

(** The v2 analysis reports gas 2, the v3 analysis gas 3. *)
Definition imports (in_v2 in_universal : bool) : Swap.Imports :=
  {| Swap.V2Deployment := unit;
     Swap.V3Deployment := unit;
     Swap.contains_v2_router := fun _ _ => Return in_v2;
     Swap.contains_universal_router := fun _ _ => Return in_universal;
     Swap.v2_analysis := fun _ _ => Return tt;
     Swap.v3_analysis := fun _ _ => Return tt;
     Swap.v2_analyse_trade_by_receipt :=
       fun _ _ _ _ _ => Return (reported_by 2);
     Swap.v3_analyse_trade_by_receipt :=
       fun _ _ _ _ _ => Return (reported_by 3) |}.

Definition codec : Universal.RouterCodec :=
  {| Universal.decode_inputs := fun _ => Return [Samples.v3_swap];
     Universal.v3_path := fun _ _ => Return [Samples.usdc; Samples.weth] |}.

(** One Swap event: 2500.000001 USDC in, 1 WETH out. *)
Definition provider : Web3 :=
  {| revert_reasons := fun _ => None;
     get_tx_events :=
       fun _ => Return [Samples.log "Swap" (-1000000000000000000) 2500000001];
     fetch_pool_details := fun _ => Return Samples.pool;
     fetch_erc20_details :=
       fun token =>
         Return {| Token.decimals :=
                     if String.eqb token Samples.usdc then 6%N else 18%N |} |}.

(** The record of that swap; its fee is 1.2500000005. *)
Definition swapped : TradeSuccess :=
  {| gas_used := 152000;
     effective_gas_price := 1000000;
     path := [Samples.usdc; Samples.weth];
     amount_in := 2500000001;
     amount_out_min := PyInt 1500;
     amount_out := 1000000000000000000;
     price := {| coefficient := -201234; exponent := 0 |};
     amount_in_decimals := 6;
     amount_out_decimals := 18;
     token0 := Samples.weth;
     token1 := Samples.usdc;
     lp_fee_paid := S754_finite false 5629499536464920 (-52) |}.

End MoreSamples.

(** * Properties *)

(** ** Results: how [x ← m; k] steps *)

Lemma bind_Return {A B : Type} (a : A) (k : A -> result B) :
  (x ← Return a; k x) = k a.
Proof. reflexivity. Qed.

Lemma bind_Raise {A B : Type} (e : exn) (k : A -> result B) :
  (x ← Raise e; k x) = Raise e.
Proof. reflexivity. Qed.

(** A sequence that returns had its first step return. *)
Lemma bind_Return_inv {A B : Type} (m : result A) (k : A -> result B) (b : B) :
  (x ← m; k x) = Return b -> exists a, m = Return a /\ k a = Return b.
Proof.
  destruct m as [a|e]; intros H.
  - exists a. split; [reflexivity | exact H].
  - discriminate H.
Qed.

Lemma getitem_Some {V : Type} (d : gmap string V) (key : string) (v : V) :
  d !! key = Some v -> getitem d key = Return v.
Proof. intros H. unfold getitem. now rewrite H. Qed.

Lemma getitem_None {V : Type} (d : gmap string V) (key : string) :
  d !! key = None -> getitem d key = Raise (KeyError key).
Proof. intros H. unfold getitem. now rewrite H. Qed.

Ltac step_result :=
  repeat first
    [ rewrite bind_Return
    | rewrite bind_Raise
    | progress cbn beta iota zeta ].

(** ** The v3 router table *)

(** The loop answers [true] exactly when some entry carries the address. *)
Lemma router_loop_true (routers : list Constant.router) (addr : string) :
  Constant.router_loop routers addr = true <->
  exists r, r ∈ routers /\ Constant.address r = addr.
Proof.
  induction routers as [|r0 rest IH]; simpl.
  - split; [discriminate |].
    intros (r & Hin & _). now apply not_elem_of_nil in Hin.
  - destruct (String.eqb (Constant.address r0) addr) eqn:E.
    + apply String.eqb_eq in E. split; [| reflexivity].
      intros _. exists r0. split; [apply list_elem_of_here | exact E].
    + apply String.eqb_neq in E. rewrite IH. split.
      * intros (r & Hin & Hr). exists r. split; [now apply list_elem_of_further | exact Hr].
      * intros (r & Hin & Hr). apply elem_of_cons in Hin as [-> | Hin].
        -- contradiction.
        -- exists r. now split.
Qed.

Lemma router_loop_false (routers : list Constant.router) (addr : string) :
  Constant.router_loop routers addr = false <->
  forall r, r ∈ routers -> Constant.address r <> addr.
Proof.
  rewrite <- Bool.not_true_iff_false, router_loop_true. split.
  - intros H r Hin Hr. apply H. now exists r.
  - intros H (r & Hin & Hr). now apply (H r).
Qed.

Lemma contains_v3_router_known (chain addr : string) (routers : list Constant.router) :
  Constant.dex_router !! chain = Some routers ->
  Constant.contains_v3_router chain addr =
  Return (Constant.router_loop routers addr).
Proof.
  intros H. unfold Constant.contains_v3_router.
  now rewrite (getitem_Some _ _ _ H).
Qed.

Lemma contains_v3_router_unknown_chain (chain addr : string) :
  Constant.dex_router !! chain = None ->
  Constant.contains_v3_router chain addr = Raise (KeyError chain).
Proof.
  intros H. unfold Constant.contains_v3_router.
  now rewrite (getitem_None _ _ H).
Qed.

(** ** The dispatcher, branch by branch *)

Section DispatcherBranches.

Context (imp : Swap.Imports) (web3 : Web3) (chain : string) (tx : Tx)
        (tx_hash : string) (tx_receipt : TxReceipt).

Let run := Swap.analyse_trade_by_receipt imp web3 chain tx tx_hash tx_receipt.

Lemma dispatch_v2 :
  Swap.contains_v2_router imp chain (to tx) = Return true ->
  run = (v2 ← Swap.v2_analysis imp web3 (to tx);
         Swap.v2_analyse_trade_by_receipt imp web3 v2 tx tx_hash tx_receipt).
Proof.
  intros H2. unfold run, Swap.analyse_trade_by_receipt.
  cbn zeta. now rewrite H2.
Qed.

Lemma dispatch_v3 :
  Swap.contains_v2_router imp chain (to tx) = Return false ->
  Constant.contains_v3_router chain (to tx) = Return true ->
  run = (v3 ← Swap.v3_analysis imp web3 (to tx);
         Swap.v3_analyse_trade_by_receipt imp web3 v3 tx tx_hash tx_receipt).
Proof.
  intros H2 H3. unfold run, Swap.analyse_trade_by_receipt.
  cbn zeta. rewrite H2. step_result. now rewrite H3.
Qed.

Lemma dispatch_universal :
  Swap.contains_v2_router imp chain (to tx) = Return false ->
  Constant.contains_v3_router chain (to tx) = Return false ->
  Swap.contains_universal_router imp chain (to tx) = Return true ->
  run = Raise (NotImplementedError "Universal router not implemented").
Proof.
  intros H2 H3 HU. unfold run, Swap.analyse_trade_by_receipt.
  cbn zeta. rewrite H2. step_result. rewrite H3. step_result. now rewrite HU.
Qed.

Lemma dispatch_unknown :
  Swap.contains_v2_router imp chain (to tx) = Return false ->
  Constant.contains_v3_router chain (to tx) = Return false ->
  Swap.contains_universal_router imp chain (to tx) = Return false ->
  run = Raise (ValueError ("Unknown router " +:+ to tx)).
Proof.
  intros H2 H3 HU. unfold run, Swap.analyse_trade_by_receipt.
  cbn zeta. rewrite H2. step_result. rewrite H3. step_result. now rewrite HU.
Qed.

Lemma dispatch_v3_raises (e : exn) :
  Swap.contains_v2_router imp chain (to tx) = Return false ->
  Constant.contains_v3_router chain (to tx) = Raise e ->
  run = Raise e.
Proof.
  intros H2 H3. unfold run, Swap.analyse_trade_by_receipt.
  cbn zeta. rewrite H2. step_result. now rewrite H3.
Qed.

End DispatcherBranches.

(** ** Claims about the dispatcher and the v3 table *)

(** C6.  The dispatcher tries the v2 check first, on every chain: a v2
    match is handed to the v2 analysis whatever the other tables say.  On
    a chain that is a key of the v3 table, [contains_v3_router] answers
    true for exactly the addresses listed for that chain and false for
    every other address; after a v2 miss a listed destination is handed to
    the v3 analysis, an unlisted one that the universal check matches ends
    in the not-implemented error, and one that matches no family ends in
    the unknown-router error.  On a chain that is no key of the v3 table
    the table lookup raises [KeyError], and so does the dispatcher after a
    v2 miss. *)
Theorem dispatcher_priority_and_v3_membership :
  forall (imp : Swap.Imports) (web3 : Web3) (chain : string) (tx : Tx)
         (tx_hash : string) (tx_receipt : TxReceipt),
    let run := Swap.analyse_trade_by_receipt imp web3 chain tx tx_hash tx_receipt in
    (Swap.contains_v2_router imp chain (to tx) = Return true ->
     run = (v2 ← Swap.v2_analysis imp web3 (to tx);
            Swap.v2_analyse_trade_by_receipt imp web3 v2 tx tx_hash tx_receipt)) /\
    (forall routers,
        Constant.dex_router !! chain = Some routers ->
        (forall addr,
            (exists r, r ∈ routers /\ Constant.address r = addr) ->
            Constant.contains_v3_router chain addr = Return true) /\
        (forall addr,
            (forall r, r ∈ routers -> Constant.address r <> addr) ->
            Constant.contains_v3_router chain addr = Return false) /\
        (Swap.contains_v2_router imp chain (to tx) = Return false ->
         (exists r, r ∈ routers /\ Constant.address r = to tx) ->
         run = (v3 ← Swap.v3_analysis imp web3 (to tx);
                Swap.v3_analyse_trade_by_receipt imp web3 v3 tx tx_hash
                  tx_receipt)) /\
        (Swap.contains_v2_router imp chain (to tx) = Return false ->
         (forall r, r ∈ routers -> Constant.address r <> to tx) ->
         Swap.contains_universal_router imp chain (to tx) = Return true ->
         run = Raise (NotImplementedError "Universal router not implemented")) /\
        (Swap.contains_v2_router imp chain (to tx) = Return false ->
         (forall r, r ∈ routers -> Constant.address r <> to tx) ->
         Swap.contains_universal_router imp chain (to tx) = Return false ->
         run = Raise (ValueError ("Unknown router " +:+ to tx)))) /\
    (Constant.dex_router !! chain = None ->
     (forall addr,
         Constant.contains_v3_router chain addr = Raise (KeyError chain)) /\
     (Swap.contains_v2_router imp chain (to tx) = Return false ->
      run = Raise (KeyError chain))).
Proof.
  intros imp web3 chain tx tx_hash tx_receipt run.
  split; [apply dispatch_v2 |]. split.
  - intros routers Htable.
    assert (Hlisted : forall addr,
               (exists r, r ∈ routers /\ Constant.address r = addr) ->
               Constant.contains_v3_router chain addr = Return true).
    { intros addr Hin. rewrite (contains_v3_router_known _ _ _ Htable).
      f_equal. now apply router_loop_true. }
    assert (Hunlisted : forall addr,
               (forall r, r ∈ routers -> Constant.address r <> addr) ->
               Constant.contains_v3_router chain addr = Return false).
    { intros addr Hout. rewrite (contains_v3_router_known _ _ _ Htable).
      f_equal. now apply router_loop_false. }
    split; [exact Hlisted |]. split; [exact Hunlisted |].
    split; [| split].
    + intros H2 Hin. apply dispatch_v3; [exact H2 | now apply Hlisted].
    + intros H2 Hout HU.
      apply dispatch_universal; [exact H2 | now apply Hunlisted | exact HU].
    + intros H2 Hout HU.
      apply dispatch_unknown; [exact H2 | now apply Hunlisted | exact HU].
  - intros Hchain.
    assert (Hraise : forall addr,
               Constant.contains_v3_router chain addr = Raise (KeyError chain))
      by (intros addr; now apply contains_v3_router_unknown_chain).
    split; [exact Hraise |].
    intros H2. apply dispatch_v3_raises; [exact H2 | apply Hraise].
Qed.

(** The clauses of C6 on the table of the source.  The listed address,
    when the v2 check matches it too, goes to the v2 analysis; after a v2
    miss it goes to the v3 analysis; another address on "base" that no
    family matches is an unknown router; on "ethereum" the same address
    raises [KeyError]. *)
Lemma dispatcher_priority_and_v3_membership_witness :
  Swap.analyse_trade_by_receipt (MoreSamples.imports true true)
    (Samples.provider None []) "base" (Samples.tx_to Samples.odos)
    Samples.tx_hash (Samples.receipt 1)
  = Return (MoreSamples.reported_by 2) /\
  Swap.analyse_trade_by_receipt (MoreSamples.imports false true)
    (Samples.provider None []) "base" (Samples.tx_to Samples.odos)
    Samples.tx_hash (Samples.receipt 1)
  = Return (MoreSamples.reported_by 3) /\
  Swap.analyse_trade_by_receipt (MoreSamples.imports false false)
    (Samples.provider None []) "base" (Samples.tx_to Samples.other_address)
    Samples.tx_hash (Samples.receipt 1)
  = Raise (ValueError ("Unknown router " +:+ Samples.other_address)) /\
  Swap.analyse_trade_by_receipt (MoreSamples.imports false false)
    (Samples.provider None []) "ethereum" (Samples.tx_to Samples.other_address)
    Samples.tx_hash (Samples.receipt 1)
  = Raise (KeyError "ethereum").
Proof.
  assert (Hbase : Constant.dex_router !! "base" =
                  Some [ {| Constant.chain := "base";
                            Constant.address := Samples.odos;
                            Constant.name := "Odos:Router V2" |} ])
    by reflexivity.
  assert (Hother : forall r,
             r ∈ [ {| Constant.chain := "base";
                      Constant.address := Samples.odos;
                      Constant.name := "Odos:Router V2" |} ] ->
             Constant.address r <> Samples.other_address).
  { intros r Hr. apply list_elem_of_singleton in Hr. subst r. discriminate. }
  split; [| split; [| split]].
  - exact (proj1 (dispatcher_priority_and_v3_membership
                    (MoreSamples.imports true true) (Samples.provider None [])
                    "base" (Samples.tx_to Samples.odos) Samples.tx_hash
                    (Samples.receipt 1)) eq_refl).
  - destruct (proj1 (proj2 (dispatcher_priority_and_v3_membership
                    (MoreSamples.imports false true) (Samples.provider None [])
                    "base" (Samples.tx_to Samples.odos) Samples.tx_hash
                    (Samples.receipt 1))) _ Hbase)
      as (_ & _ & Hv3 & _).
    apply (Hv3 eq_refl).
    eexists. split; [apply list_elem_of_here | reflexivity].
  - destruct (proj1 (proj2 (dispatcher_priority_and_v3_membership
                    (MoreSamples.imports false false) (Samples.provider None [])
                    "base" (Samples.tx_to Samples.other_address)
                    Samples.tx_hash (Samples.receipt 1))) _ Hbase)
      as (_ & _ & _ & _ & Hunknown).
    exact (Hunknown eq_refl Hother eq_refl).
  - exact (proj2 (proj2 (proj2 (dispatcher_priority_and_v3_membership
                    (MoreSamples.imports false false) (Samples.provider None [])
                    "ethereum" (Samples.tx_to Samples.other_address)
                    Samples.tx_hash (Samples.receipt 1))) eq_refl) eq_refl).
Defined.

(** Against C6 as worded for every chain: on "ethereum", which is no key
    of the v3 table, an address that no family matches does not end in the
    unknown-router error but in [KeyError]. *)
Lemma dispatcher_unknown_chain_counterexample :
  Swap.contains_v2_router (Samples.imports false false) "ethereum"
    Samples.other_address = Return false /\
  Swap.contains_universal_router (Samples.imports false false) "ethereum"
    Samples.other_address = Return false /\
  Constant.dex_router !! "ethereum" = None /\
  Swap.analyse_trade_by_receipt (Samples.imports false false)
    (Samples.provider None []) "ethereum" (Samples.tx_to Samples.other_address)
    Samples.tx_hash (Samples.receipt 1)
  = Raise (KeyError "ethereum") /\
  Swap.analyse_trade_by_receipt (Samples.imports false false)
    (Samples.provider None []) "ethereum" (Samples.tx_to Samples.other_address)
    Samples.tx_hash (Samples.receipt 1)
  <> Raise (ValueError ("Unknown router " +:+ Samples.other_address)).
Proof.
  split; [reflexivity |]. split; [reflexivity |]. split; [reflexivity |].
  split; [reflexivity | discriminate].
Qed.

(** C9.  On a chain that is no key of the v3 table, [contains_v3_router]
    raises [KeyError] for every address, and so does the dispatcher once
    the v2 check has answered false: neither [False] nor the
    unknown-router error comes out. *)
Theorem unknown_chain_raises_KeyError :
  forall (chain addr : string),
    Constant.dex_router !! chain = None ->
    Constant.contains_v3_router chain addr = Raise (KeyError chain) /\
    forall (imp : Swap.Imports) (web3 : Web3) (tx : Tx) (tx_hash : string)
           (tx_receipt : TxReceipt),
      to tx = addr ->
      Swap.contains_v2_router imp chain addr = Return false ->
      Swap.analyse_trade_by_receipt imp web3 chain tx tx_hash tx_receipt
      = Raise (KeyError chain).
Proof.
  intros chain addr Hchain.
  pose proof (contains_v3_router_unknown_chain chain addr Hchain) as Hv3.
  split; [exact Hv3 |].
  intros imp web3 tx tx_hash tx_receipt <- H2.
  now apply dispatch_v3_raises.
Qed.

Lemma unknown_chain_raises_KeyError_witness :
  Constant.dex_router !! "ethereum" = None /\
  Constant.contains_v3_router "ethereum" Samples.odos
  = Raise (KeyError "ethereum") /\
  Swap.analyse_trade_by_receipt (Samples.imports false false)
    (Samples.provider None []) "ethereum"
    (Samples.tx_to Samples.odos) Samples.tx_hash (Samples.receipt 1)
  = Raise (KeyError "ethereum").
Proof.
  split; [reflexivity |].
  destruct (unknown_chain_raises_KeyError "ethereum" Samples.odos eq_refl)
    as [Htable Hdispatch].
  split; [exact Htable |].
  apply Hdispatch; reflexivity.
Defined.

(** ** The universal analysis *)

(** On a receipt of status 1 the analysis is the composition of its
    phases. *)
Lemma analyse_by_phases (codec : Universal.RouterCodec) (web3 : Web3) (tx : Tx)
    (tx_hash : string) (tx_receipt : TxReceipt) :
  status tx_receipt = 1 ->
  Universal.analyse_trade_by_receipt codec web3 tx tx_hash tx_receipt =
  (parameters ← Phases.swap_parameters codec tx;
   events ← get_tx_events web3 tx_hash;
   event ← Phases.select_swap_event tx_receipt events;
   s ← Universal.get_v3_by_event web3
         (default 0 (effectiveGasPrice tx_receipt)) (gasUsed tx_receipt)
         parameters.1 parameters.2 event;
   Return (Success s)).
Proof.
  intros Hstatus.
  unfold Universal.analyse_trade_by_receipt, Phases.swap_parameters,
    Phases.select_swap_event.
  rewrite Hstatus. cbn [Z.eqb Pos.eqb negb].
  destruct (Universal.decode_inputs codec (input tx)) as [ops|e];
    [| reflexivity].
  step_result.
  destruct ((length (filter Universal.is_v3_swap ops) =? 0)%nat
            && (length (filter Universal.is_v2_swap ops) =? 0)%nat);
    [reflexivity |].
  destruct (1 <? length (filter Universal.is_v3_swap ops)
                 + length (filter Universal.is_v2_swap ops))%nat;
    [reflexivity |].
  destruct (length (filter Universal.is_v2_swap ops) =? 1)%nat;
    [reflexivity |].
  destruct (index_first (filter Universal.is_v3_swap ops)) as [op|e];
    [| reflexivity].
  step_result.
  destruct (index_first ops) as [first_op|e]; [| reflexivity].
  step_result.
  destruct (getitem first_op.2 "path") as [path_bytes|e]; [| reflexivity].
  step_result.
  destruct (Universal.v3_path codec (Universal.fn_name op.1) path_bytes)
    as [path|e]; [| reflexivity].
  step_result.
  destruct (getitem first_op.2 "amountOutMin") as [amount_out_min|e];
    [| reflexivity].
  step_result.
  destruct (get_tx_events web3 tx_hash) as [events|e]; [| reflexivity].
  step_result.
  destruct (py_assert (0 <? length events)%nat _) as [[]|e]; [| reflexivity].
  step_result.
  destruct (index_last (filter Universal.is_swap_event events)) as [t|e];
    [| reflexivity].
  step_result.
  destruct (py_assert (0 <? tuple_len t)%nat _) as [[]|e]; [| reflexivity].
  reflexivity.
Qed.

(** *** Counting the swap-kind commands *)

Lemma swap_kind_split (x : Universal.UrFunction * gmap string pyval) :
  Phases.is_swap_kind x <-> Universal.is_v3_swap x \/ Universal.is_v2_swap x.
Proof.
  unfold Phases.is_swap_kind, Universal.is_v3_swap, Universal.is_v2_swap.
  rewrite !elem_of_cons, !elem_of_nil. tauto.
Qed.

Lemma swap_kind_disjoint (x : Universal.UrFunction * gmap string pyval) :
  Universal.is_v3_swap x -> Universal.is_v2_swap x -> False.
Proof.
  unfold Universal.is_v3_swap, Universal.is_v2_swap.
  rewrite !elem_of_cons, !elem_of_nil.
  intros [-> | [-> | []]] [H | [H | []]]; discriminate H.
Qed.

(** The two filters of the source split the swap-kind commands. *)
Lemma swap_kind_count (ops : list (Universal.UrFunction * gmap string pyval)) :
  length (filter Phases.is_swap_kind ops) =
  (length (filter Universal.is_v3_swap ops)
   + length (filter Universal.is_v2_swap ops))%nat.
Proof.
  induction ops as [|x ops IH]; [reflexivity |].
  rewrite !filter_cons.
  pose proof (swap_kind_split x) as Hsplit.
  pose proof (swap_kind_disjoint x) as Hdisj.
  destruct (decide (Phases.is_swap_kind x)) as [Hk|Hk];
    destruct (decide (Universal.is_v3_swap x)) as [H3|H3];
    destruct (decide (Universal.is_v2_swap x)) as [H2|H2];
    cbn [length]; try lia; tauto.
Qed.

Lemma filter_none {A : Type} (P : A -> Prop) `{!forall x, Decision (P x)}
    (l : list A) :
  (forall x, x ∈ l -> ~ P x) -> filter P l = [].
Proof.
  induction l as [|x l IH]; intros Hno; [reflexivity |].
  rewrite filter_cons_False by (apply Hno, list_elem_of_here).
  apply IH. intros y Hy. apply Hno. now apply list_elem_of_further.
Qed.

(** *** The three rejections by the number of swap commands *)

Section SwapParameters.

Context (codec : Universal.RouterCodec) (tx : Tx)
        (ops : list (Universal.UrFunction * gmap string pyval)).
Hypothesis Hdecoded : Universal.decode_inputs codec (input tx) = Return ops.

Lemma swap_parameters_none :
  length (filter Phases.is_swap_kind ops) = 0%nat ->
  Phases.swap_parameters codec tx =
  Raise (ValueError "No swap operation detected in the transaction").
Proof.
  rewrite swap_kind_count. intros Hn.
  unfold Phases.swap_parameters. rewrite Hdecoded. step_result.
  replace (length (filter Universal.is_v3_swap ops)) with 0%nat by lia.
  replace (length (filter Universal.is_v2_swap ops)) with 0%nat by lia.
  reflexivity.
Qed.

Lemma swap_parameters_multiple :
  (2 <= length (filter Phases.is_swap_kind ops))%nat ->
  Phases.swap_parameters codec tx =
  Raise (ValueError "Multiple swap operations detected in the transaction").
Proof.
  rewrite swap_kind_count. intros Hn.
  unfold Phases.swap_parameters. rewrite Hdecoded. step_result.
  destruct ((length (filter Universal.is_v3_swap ops) =? 0)%nat
            && (length (filter Universal.is_v2_swap ops) =? 0)%nat) eqn:E0.
  - apply andb_true_iff in E0 as [E3 E2].
    apply Nat.eqb_eq in E3, E2. lia.
  - destruct (1 <? length (filter Universal.is_v3_swap ops)
                   + length (filter Universal.is_v2_swap ops))%nat eqn:E1;
      [reflexivity |].
    apply Nat.ltb_ge in E1. lia.
Qed.

Lemma swap_parameters_single_v2 :
  length (filter Phases.is_swap_kind ops) = 1%nat ->
  length (filter Universal.is_v2_swap ops) = 1%nat ->
  Phases.swap_parameters codec tx =
  Raise (NotImplementedError "Uniswap V2 trades are not supported yet").
Proof.
  rewrite swap_kind_count. intros Hn H2.
  unfold Phases.swap_parameters. rewrite Hdecoded. step_result.
  rewrite H2.
  replace (length (filter Universal.is_v3_swap ops)) with 0%nat by lia.
  reflexivity.
Qed.

(** Past the three checks exactly one command is left, of the v3 kind, and
    the two parameters are read from the first decoded command. *)
Lemma swap_parameters_single_v3 (op : Universal.UrFunction * gmap string pyval) :
  filter Universal.is_v3_swap ops = [op] ->
  filter Universal.is_v2_swap ops = [] ->
  Phases.swap_parameters codec tx =
  (first_op ← index_first ops;
   path_bytes ← getitem first_op.2 "path";
   path ← Universal.v3_path codec (Universal.fn_name op.1) path_bytes;
   amount_out_min ← getitem first_op.2 "amountOutMin";
   Return (path, amount_out_min)).
Proof.
  intros H3 H2.
  unfold Phases.swap_parameters. rewrite Hdecoded. step_result.
  rewrite H3, H2. reflexivity.
Qed.

Lemma swap_parameters_Return_inv (parameters : list string * pyval) :
  Phases.swap_parameters codec tx = Return parameters ->
  length (filter Phases.is_swap_kind ops) = 1%nat /\
  filter Universal.is_v2_swap ops = [] /\
  exists op, filter Universal.is_v3_swap ops = [op].
Proof.
  rewrite swap_kind_count.
  unfold Phases.swap_parameters. rewrite Hdecoded. step_result.
  destruct (filter Universal.is_v3_swap ops) as [|op3 [|op3' l3]];
    destruct (filter Universal.is_v2_swap ops) as [|op2 [|op2' l2]];
    cbn [length Nat.eqb Nat.ltb Nat.leb Nat.add andb];
    try discriminate.
  intros _. split; [reflexivity |]. split; [reflexivity |]. now exists op3.
Qed.

End SwapParameters.

(** *** Selecting the event *)

Section SelectSwapEvent.

Context (tx_receipt : TxReceipt).

Lemma select_swap_event_empty :
  Phases.select_swap_event tx_receipt [] =
  Raise (AssertionError (Universal.no_swap_events_msg tx_receipt)).
Proof. reflexivity. Qed.

(** What follows the last "Swap" event is filtered out, so [[-1]] lands on
    it. *)
Lemma select_swap_event_last
    (before after : list (Event.EventData * gmap string Z))
    (e : Event.EventData) (x : gmap string Z) :
  Event.event e = "Swap" ->
  (forall t, t ∈ after -> Event.event t.1 <> "Swap") ->
  Phases.select_swap_event tx_receipt (before ++ (e, x) :: after) = Return e.
Proof.
  intros He Hafter. unfold Phases.select_swap_event.
  assert (Hlen : (0 <? length (before ++ (e, x) :: after))%nat = true).
  { apply Nat.ltb_lt. rewrite length_app. cbn [length]. lia. }
  rewrite Hlen. cbn [py_assert]. step_result.
  rewrite filter_app, filter_cons_True by exact He.
  rewrite (filter_none Universal.is_swap_event after) by exact Hafter.
  unfold index_last. rewrite last_snoc. reflexivity.
Qed.

(** With events but no "Swap" among them, the filtered list is empty and
    [[-1]] is out of range. *)
Lemma select_swap_event_no_swap (events : list (Event.EventData * gmap string Z)) :
  events <> [] ->
  (forall t, t ∈ events -> Event.event t.1 <> "Swap") ->
  Phases.select_swap_event tx_receipt events =
  Raise (IndexError "list index out of range").
Proof.
  intros Hne Hnone. unfold Phases.select_swap_event.
  destruct events as [|t events]; [contradiction |].
  cbn [length Nat.ltb Nat.leb py_assert]. step_result.
  rewrite (filter_none Universal.is_swap_event (t :: events)) by exact Hnone.
  reflexivity.
Qed.

(** The assertion error of this phase can only come from the first
    assertion, on the unfiltered list. *)
Lemma select_swap_event_AssertionError
    (events : list (Event.EventData * gmap string Z)) (msg : string) :
  Phases.select_swap_event tx_receipt events = Raise (AssertionError msg) ->
  events = [].
Proof.
  unfold Phases.select_swap_event.
  destruct events as [|t events]; [reflexivity |].
  cbn [length Nat.ltb Nat.leb py_assert]. step_result.
  unfold index_last.
  destruct (last (filter Universal.is_swap_event (t :: events))) as [t'|];
    cbn; discriminate.
Qed.

End SelectSwapEvent.

(** *** The success record *)

Section GetV3ByEvent.

Context (web3 : Web3) (gas_price gas : Z) (route : list string)
        (min_out : pyval) (event : Event.EventData)
        (amount0 amount1 tick : Z).
Hypothesis Hamount0 : Event.args event !! "amount0" = Some amount0.
Hypothesis Hamount1 : Event.args event !! "amount1" = Some amount1.
Hypothesis Htick : Event.args event !! "tick" = Some tick.

Let run := Universal.get_v3_by_event web3 gas_price gas route
             min_out event.

Let sign_pair := (0 < amount0 /\ amount1 < 0) \/ (amount0 < 0 /\ 0 < amount1).

Lemma sign_pair_test :
  ((0 <? amount0) && (amount1 <? 0) || (amount0 <? 0) && (0 <? amount1)) = true
  <-> sign_pair.
Proof.
  unfold sign_pair.
  rewrite orb_true_iff, !andb_true_iff, !Z.ltb_lt. tauto.
Qed.

(** Up to the first assertion. *)
Lemma get_v3_by_event_prefix :
  run =
  (pool ← fetch_pool_details web3 (Event.address event);
   _ ← py_assert ((0 <? amount0) && (amount1 <? 0)
                  || (amount0 <? 0) && (0 <? amount1))
                 "Unsupported swap type";
   let amount_out := if amount0 <? 0 then amount0 else amount1 in
   _ ← py_assert (amount_out <? 0)
                 "amount out should be negative for uniswap v3";
   path_first ← index_first route;
   in_token_details ← fetch_erc20_details web3 path_first;
   path_last ← index_last route;
   out_token_details ← fetch_erc20_details web3 path_last;
   price ← Pool.convert_price_to_human pool tick;
   let amount_in := if 0 <? amount0 then amount0 else amount1 in
   lp_fee_paid ← Universal.lp_fee amount_in (Pool.fee pool)
                   (Token.decimals in_token_details);
   Return {| gas_used := gas;
             effective_gas_price := gas_price;
             path := route;
             amount_in := amount_in;
             amount_out_min := min_out;
             amount_out := Z.abs amount_out;
             price := price;
             amount_in_decimals := Token.decimals in_token_details;
             amount_out_decimals := Token.decimals out_token_details;
             token0 := Pool.token0 pool;
             token1 := Pool.token1 pool;
             lp_fee_paid := lp_fee_paid |}).
Proof.
  unfold run, Universal.get_v3_by_event. cbn zeta.
  rewrite (getitem_Some _ _ _ Hamount0), (getitem_Some _ _ _ Hamount1),
    (getitem_Some _ _ _ Htick).
  reflexivity.
Qed.

Lemma get_v3_by_event_unsupported (pool : Pool.PoolDetails) :
  ~ sign_pair ->
  fetch_pool_details web3 (Event.address event) = Return pool ->
  run = Raise (AssertionError "Unsupported swap type").
Proof.
  intros Hshape Hpool. rewrite get_v3_by_event_prefix, Hpool. step_result.
  destruct ((0 <? amount0) && (amount1 <? 0)
            || (amount0 <? 0) && (0 <? amount1)) eqn:E; [| reflexivity].
  apply sign_pair_test in E. contradiction.
Qed.

(** A returned record tells that the sign test passed, and which amount
    went where. *)
Lemma get_v3_by_event_Return_inv (s : TradeSuccess) :
  run = Return s ->
  sign_pair /\
  amount_in s = (if 0 <? amount0 then amount0 else amount1) /\
  amount_out s = Z.abs (if amount0 <? 0 then amount0 else amount1) /\
  amount_out_min s = min_out /\
  path s = route.
Proof.
  rewrite get_v3_by_event_prefix. intros Hrun.
  apply bind_Return_inv in Hrun as (pool & _ & Hrun).
  apply bind_Return_inv in Hrun as ([] & Hassert & Hrun).
  cbn zeta in Hrun.
  assert (Hshape : sign_pair).
  { apply sign_pair_test.
    destruct ((0 <? amount0) && (amount1 <? 0)
              || (amount0 <? 0) && (0 <? amount1)); [reflexivity |].
    discriminate Hassert. }
  split; [exact Hshape |].
  apply bind_Return_inv in Hrun as ([] & _ & Hrun).
  apply bind_Return_inv in Hrun as (path_first & _ & Hrun).
  apply bind_Return_inv in Hrun as (in_token_details & _ & Hrun).
  apply bind_Return_inv in Hrun as (path_last & _ & Hrun).
  apply bind_Return_inv in Hrun as (out_token_details & _ & Hrun).
  apply bind_Return_inv in Hrun as (price & _ & Hrun).
  apply bind_Return_inv in Hrun as (lp_fee_paid & _ & Hrun).
  injection Hrun as <-. cbn. repeat split; reflexivity.
Qed.

(** With the sign test passed and every collaborator answering, the
    record is built. *)
Lemma get_v3_by_event_supported
    (pool : Pool.PoolDetails) (path_first path_last : string)
    (in_token_details out_token_details : Token.TokenDetails)
    (price : Decimal) (lp_fee_paid : spec_float) :
  sign_pair ->
  fetch_pool_details web3 (Event.address event) = Return pool ->
  index_first route = Return path_first ->
  fetch_erc20_details web3 path_first = Return in_token_details ->
  index_last route = Return path_last ->
  fetch_erc20_details web3 path_last = Return out_token_details ->
  Pool.convert_price_to_human pool tick = Return price ->
  Universal.lp_fee (if 0 <? amount0 then amount0 else amount1) (Pool.fee pool)
    (Token.decimals in_token_details) = Return lp_fee_paid ->
  run = Return {| gas_used := gas;
                  effective_gas_price := gas_price;
                  path := route;
                  amount_in := if 0 <? amount0 then amount0 else amount1;
                  amount_out_min := min_out;
                  amount_out := Z.abs (if amount0 <? 0 then amount0 else amount1);
                  price := price;
                  amount_in_decimals := Token.decimals in_token_details;
                  amount_out_decimals := Token.decimals out_token_details;
                  token0 := Pool.token0 pool;
                  token1 := Pool.token1 pool;
                  lp_fee_paid := lp_fee_paid |}.
Proof.
  intros Hshape Hpool Hfirst Hin Hlast Hout Hprice Hfee.
  rewrite get_v3_by_event_prefix, Hpool. step_result.
  apply sign_pair_test in Hshape as Htest. rewrite Htest.
  cbn [py_assert]. step_result.
  assert (Hneg : ((if amount0 <? 0 then amount0 else amount1) <? 0) = true).
  { unfold sign_pair in Hshape.
    destruct (Z.ltb_spec amount0 0); apply Z.ltb_lt; lia. }
  rewrite Hneg. cbn [py_assert]. step_result.
  rewrite Hfirst. step_result. rewrite Hin. step_result.
  rewrite Hlast. step_result. rewrite Hout. step_result.
  rewrite Hprice. step_result. rewrite Hfee. reflexivity.
Qed.

End GetV3ByEvent.

(** ** Binary64 rounding keeps signs

    The facts about the IEEE 754 operations of the standard library that
    the fee computation needs: shifting and rounding a non-negative
    mantissa gives a non-negative mantissa, and a positive mantissa above
    the smallest exponent does not vanish. *)

Lemma shr_m_shr_1 (mrs : shr_record) :
  0 <= shr_m mrs -> shr_m (shr_1 mrs) = shr_m mrs / 2.
Proof.
  destruct mrs as [m r s]. cbn [shr_m]. intros Hm.
  destruct m as [|[p|p|]|p]; cbn [shr_1 shr_m]; [reflexivity | | | reflexivity | lia].
  - change (Z.pos p~1) with (2 * Z.pos p + 1).
    apply (Z.div_unique_pos _ _ _ 1); lia.
  - change (Z.pos p~0) with (2 * Z.pos p).
    apply (Z.div_unique_pos _ _ _ 0); lia.
Qed.

Lemma shr_m_iter (n : positive) :
  forall mrs, 0 <= shr_m mrs ->
    shr_m (SpecFloat.iter_pos shr_1 n mrs) = shr_m mrs / 2 ^ Zpos n.
Proof.
  assert (Hstep : forall mrs, 0 <= shr_m mrs -> 0 <= shr_m mrs / 2)
    by (intros; apply Z.div_pos; lia).
  induction n as [n IH|n IH|]; intros mrs Hm; cbn [SpecFloat.iter_pos].
  - assert (H1 : 0 <= shr_m (shr_1 mrs))
      by (rewrite shr_m_shr_1 by exact Hm; now apply Hstep).
    assert (H2 : 0 <= shr_m (SpecFloat.iter_pos shr_1 n (shr_1 mrs)))
      by (rewrite IH by exact H1; apply Z.div_pos; lia).
    rewrite IH by exact H2. rewrite IH by exact H1.
    rewrite shr_m_shr_1 by exact Hm.
    rewrite !Z.div_div by lia.
    f_equal. change (Z.pos n~1) with (2 * Z.pos n + 1).
    replace (2 ^ (2 * Z.pos n + 1)) with (2 ^ 1 * 2 ^ Z.pos n * 2 ^ Z.pos n)
      by (rewrite <- !Z.pow_add_r by lia; f_equal; lia).
    rewrite Z.pow_1_r. lia.
  - assert (H1 : 0 <= shr_m (SpecFloat.iter_pos shr_1 n mrs))
      by (rewrite IH by exact Hm; apply Z.div_pos; lia).
    rewrite IH by exact H1. rewrite IH by exact Hm.
    rewrite Z.div_div by lia.
    f_equal. change (Z.pos n~0) with (2 * Z.pos n).
    replace (2 ^ (2 * Z.pos n)) with (2 ^ Z.pos n * 2 ^ Z.pos n)
      by (rewrite <- Z.pow_add_r by lia; f_equal; lia).
    reflexivity.
  - rewrite shr_m_shr_1 by exact Hm. reflexivity.
Qed.

Lemma digits2_pos_bound (p : positive) :
  2 ^ (Zpos (digits2_pos p) - 1) <= Zpos p.
Proof.
  induction p as [p IH|p IH|]; cbn [digits2_pos]; [| | cbn; lia];
    rewrite Pos2Z.inj_succ;
    replace (Z.succ (Zpos (digits2_pos p)) - 1)
      with (Z.succ (Zpos (digits2_pos p) - 1)) by lia;
    rewrite Z.pow_succ_r by lia; lia.
Qed.

Lemma shr_m_of_loc (m : Z) (l : location) : shr_m (shr_record_of_loc m l) = m.
Proof. destruct l as [|[]]; reflexivity. Qed.

Lemma shr_fexp_nonneg (m e : Z) (l : location) :
  0 <= m -> 0 <= shr_m (shr_fexp prec emax m e l).1.
Proof.
  intros Hm. unfold shr_fexp, shr.
  destruct (fexp prec emax (Zdigits2 m + e) - e) as [|n|n];
    cbn [fst]; rewrite ?shr_m_iter; rewrite ?shr_m_of_loc; try lia.
  apply Z.div_pos; lia.
Qed.

Lemma shr_fexp_pos (p : positive) (e : Z) (l : location) :
  emin <= e ->
  0 < shr_m (shr_fexp prec emax (Zpos p) e l).1 /\
  emin <= (shr_fexp prec emax (Zpos p) e l).2.
Proof.
  intros He. unfold shr_fexp, shr.
  pose proof (digits2_pos_bound p) as Hdigits.
  destruct (fexp prec emax (Zdigits2 (Zpos p) + e) - e) as [|n|n] eqn:En;
    cbn [fst snd]; rewrite ?shr_m_iter; rewrite ?shr_m_of_loc; try lia.
  split; [| lia].
  apply Z.div_str_pos. split; [lia |].
  transitivity (2 ^ (Zpos (digits2_pos p) - 1)); [| exact Hdigits].
  apply Z.pow_le_mono_r; [lia |].
  revert En He. unfold fexp, SpecFloat.emin, prec, emax. cbn [Zdigits2]. lia.
Qed.

Lemma round_nearest_even_ge (m : Z) (l : location) :
  m <= round_nearest_even m l.
Proof.
  destruct l as [|[]]; cbn [round_nearest_even]; try lia.
  destruct (Z.even m); lia.
Qed.

(** Rounding keeps the sign it is given and produces no NaN. *)
Lemma binary_round_aux_sign (s : bool) (m e : Z) (l : location) :
  0 <= m ->
  match binary_round_aux prec emax s m e l with
  | S754_zero s' | S754_infinity s' | S754_finite s' _ _ => s' = s
  | S754_nan => False
  end.
Proof.
  intros Hm. unfold binary_round_aux.
  pose proof (shr_fexp_nonneg m e l Hm) as H1.
  destruct (shr_fexp prec emax m e l) as [mrs' e']. cbn [fst] in H1.
  pose proof (round_nearest_even_ge (shr_m mrs') (loc_of_shr_record mrs')) as Hr.
  pose proof (shr_fexp_nonneg
                (round_nearest_even (shr_m mrs') (loc_of_shr_record mrs'))
                e' loc_Exact ltac:(lia)) as H2.
  destruct (shr_fexp prec emax _ e' loc_Exact) as [mrs'' e'']. cbn [fst] in H2.
  destruct (shr_m mrs'') as [|q|q]; [reflexivity | | lia].
  destruct (e'' <=? emax - prec); reflexivity.
Qed.

(** Above the smallest exponent a positive mantissa does not round to zero. *)
Lemma binary_round_aux_nonzero (s : bool) (p : positive) (e : Z) (l : location) :
  emin <= e ->
  match binary_round_aux prec emax s (Zpos p) e l with
  | S754_infinity s' | S754_finite s' _ _ => s' = s
  | _ => False
  end.
Proof.
  intros He. unfold binary_round_aux.
  pose proof (shr_fexp_pos p e l He) as [H1 He'].
  destruct (shr_fexp prec emax (Zpos p) e l) as [mrs' e']. cbn [fst snd] in H1, He'.
  pose proof (round_nearest_even_ge (shr_m mrs') (loc_of_shr_record mrs')) as Hr.
  destruct (round_nearest_even (shr_m mrs') (loc_of_shr_record mrs'))
    as [|p'|p'] eqn:Ep'; try lia.
  pose proof (shr_fexp_pos p' e' loc_Exact He') as [H2 _].
  destruct (shr_fexp prec emax (Zpos p') e' loc_Exact) as [mrs'' e''].
  cbn [fst] in H2.
  destruct (shr_m mrs'') as [|q|q]; try lia.
  destruct (e'' <=? emax - prec); reflexivity.
Qed.

Lemma nonneg_float_cases (x : spec_float) :
  nonneg_float x <->
  match x with
  | S754_zero _ | S754_infinity false | S754_finite false _ _ => True
  | _ => False
  end.
Proof.
  unfold nonneg_float.
  destruct x as [[]|[]| |[] m e]; cbn; intuition discriminate.
Qed.

(** A positive integer converts to a positive finite value (or raises). *)
Lemma float_of_int_positive (z : Z) (f : spec_float) :
  0 < z ->
  Universal.float_of_int z = Return f ->
  exists m e, f = S754_finite false m e.
Proof.
  intros Hz. destruct z as [|p|p]; try lia.
  unfold Universal.float_of_int, binary_normalize, binary_round.
  destruct (shl_align p 0 (fexp prec emax (Z.pos (digits2_pos p) + 0)))
    as [mz ez] eqn:Ealign.
  assert (Hez : emin <= ez).
  { revert Ealign. unfold shl_align.
    destruct (fexp prec emax (Z.pos (digits2_pos p) + 0) - 0) eqn:Ed;
      intros [= <- <-]; unfold fexp, SpecFloat.emin, prec, emax in *; lia. }
  pose proof (binary_round_aux_nonzero false mz ez loc_Exact Hez) as Hround.
  destruct (binary_round_aux prec emax false (Z.pos mz) ez loc_Exact)
    as [s|s| |s m e]; try contradiction; [discriminate |].
  intros [= <-]. subst s. now exists m, e.
Qed.

Lemma SF64mul_nonneg (m : positive) (e : Z) (y : spec_float) :
  nonneg_float y -> nonneg_float (SF64mul (S754_finite false m e) y).
Proof.
  rewrite !nonneg_float_cases.
  destruct y as [s|[]| |[] my ey]; cbn [SF64mul SFmul xorb]; try tauto.
  intros _.
  pose proof (binary_round_aux_sign false (Z.pos (m * my)) (e + ey) loc_Exact
                ltac:(lia)) as Hround.
  destruct (binary_round_aux prec emax false (Z.pos (m * my)) (e + ey) loc_Exact)
    as [s|s| |s m' e']; try contradiction; now subst s.
Qed.

Lemma SF64div_nonneg (x : spec_float) (m : positive) (e : Z) :
  nonneg_float x -> nonneg_float (SF64div x (S754_finite false m e)).
Proof.
  rewrite !nonneg_float_cases.
  destruct x as [s|[]| |[] mx ex]; cbn [SF64div SFdiv xorb]; try tauto.
  intros _. unfold SFdiv_core_binary.
  set (s := ex - e - Z.min (fexp prec emax (Zdigits2 (Z.pos mx) + ex
                                            - (Zdigits2 (Z.pos m) + e)))
                           (ex - e)).
  set (m' := match s with
             | 0 => Z.pos mx
             | Z.pos _ => Z.shiftl (Z.pos mx) s
             | Z.neg _ => 0
             end).
  assert (Hm' : 0 <= m').
  { subst m'. destruct s; [lia | | lia]. apply Z.shiftl_nonneg. lia. }
  assert (Hq : 0 <= (Z.div_eucl m' (Z.pos m)).1).
  { change ((Z.div_eucl m' (Z.pos m)).1) with (m' / Z.pos m).
    apply Z.div_pos; lia. }
  destruct (Z.div_eucl m' (Z.pos m)) as [q r]. cbn [fst] in Hq.
  match goal with
  | |- context [binary_round_aux prec emax false q ?e' ?l] =>
      pose proof (binary_round_aux_sign false q e' l Hq) as Hround;
      destruct (binary_round_aux prec emax false q e' l) as [s'|s'| |s' mq eq]
  end; try contradiction; now subst s'.
Qed.

(** The fee is of the sign of the pool's fee rate. *)
Lemma lp_fee_nonneg (amount_in : Z) (fee : spec_float) (decimals : N)
    (paid : spec_float) :
  0 < amount_in ->
  nonneg_float fee ->
  Universal.lp_fee amount_in fee decimals = Return paid ->
  nonneg_float paid.
Proof.
  intros Hin Hfee. unfold Universal.lp_fee. intros Hpaid.
  apply bind_Return_inv in Hpaid as (a & Ha & Hpaid).
  apply bind_Return_inv in Hpaid as (d & Hd & Hpaid).
  injection Hpaid as <-.
  apply float_of_int_positive in Ha as (ma & ea & ->); [| exact Hin].
  apply float_of_int_positive in Hd as (md & ed & ->);
    [| apply Z.pow_pos_nonneg; lia].
  apply SF64div_nonneg, SF64mul_nonneg, Hfee.
Qed.

Lemma py_assert_Return_inv (cond : bool) (msg : string) (u : unit) :
  py_assert cond msg = Return u -> cond = true.
Proof. destruct cond; [reflexivity | discriminate]. Qed.


(** A returned record was built from the pool of the event, the token of
    the head of the route, and the fee computed from them. *)
Lemma get_v3_by_event_fee :
  forall (web3 : Web3) (gas_price gas : Z) (route : list string)
         (min_out : pyval) (event : Event.EventData) (s : TradeSuccess),
    Universal.get_v3_by_event web3 gas_price gas route min_out event = Return s ->
    exists pool path_first in_token a d,
      fetch_pool_details web3 (Event.address event) = Return pool /\
      index_first route = Return path_first /\
      fetch_erc20_details web3 path_first = Return in_token /\
      amount_in_decimals s = Token.decimals in_token /\
      0 < amount_in s /\
      Universal.float_of_int (amount_in s) = Return a /\
      Universal.float_of_int (10 ^ Z.of_N (Token.decimals in_token)) = Return d /\
      lp_fee_paid s = SF64div (SF64mul a (Pool.fee pool)) d /\
      (nonneg_float (Pool.fee pool) -> nonneg_float (lp_fee_paid s)).
Proof.
  intros web3 gas_price gas route min_out event s Hrun.
  unfold Universal.get_v3_by_event in Hrun. cbn zeta in Hrun.
  apply bind_Return_inv in Hrun as (amount0 & _ & Hrun).
  apply bind_Return_inv in Hrun as (amount1 & _ & Hrun).
  apply bind_Return_inv in Hrun as (tick & _ & Hrun).
  apply bind_Return_inv in Hrun as (pool & Hpool & Hrun).
  apply bind_Return_inv in Hrun as (u & Hshape & Hrun).
  apply py_assert_Return_inv in Hshape.
  apply bind_Return_inv in Hrun as (u' & _ & Hrun).
  apply bind_Return_inv in Hrun as (path_first & Hfirst & Hrun).
  apply bind_Return_inv in Hrun as (in_token & Hin & Hrun).
  apply bind_Return_inv in Hrun as (path_last & _ & Hrun).
  apply bind_Return_inv in Hrun as (out_token & _ & Hrun).
  apply bind_Return_inv in Hrun as (price & _ & Hrun).
  apply bind_Return_inv in Hrun as (paid & Hpaid & Hrun).
  injection Hrun as <-. cbn [amount_in amount_in_decimals lp_fee_paid].
  assert (Hpositive : 0 < (if 0 <? amount0 then amount0 else amount1)).
  { apply orb_true_iff in Hshape as [H|H];
      apply andb_true_iff in H as [Ha Hb];
      apply Z.ltb_lt in Ha, Hb;
      destruct (Z.ltb_spec 0 amount0); lia. }
  pose proof Hpaid as Hfee. unfold Universal.lp_fee in Hfee.
  apply bind_Return_inv in Hfee as (a & Ha & Hfee).
  apply bind_Return_inv in Hfee as (d & Hd & Hfee).
  injection Hfee as Hfee.
  exists pool, path_first, in_token, a, d.
  repeat (split; [first [assumption | reflexivity | now symmetry] |]).
  intros Hrate.
  exact (lp_fee_nonneg _ _ _ _ Hpositive Hrate Hpaid).
Qed.

(** ** Claims about the universal analysis *)

(** C1.  On a receipt of status 1 whose call input decodes to [ops]: with
    no swap-kind command among [ops] the analysis raises the no-swap
    error, with two or more (of whatever kinds) it raises the
    multiple-swaps error; and whenever the analysis returns a success
    record, the status was 1 and exactly one swap-kind command was
    decoded. *)
Theorem swap_count_decides_rejection :
  forall (codec : Universal.RouterCodec) (web3 : Web3) (tx : Tx)
         (tx_hash : string) (tx_receipt : TxReceipt),
    let run := Universal.analyse_trade_by_receipt codec web3 tx tx_hash tx_receipt in
    (forall ops,
        status tx_receipt = 1 ->
        Universal.decode_inputs codec (input tx) = Return ops ->
        length (filter Phases.is_swap_kind ops) = 0%nat ->
        run = Raise (ValueError "No swap operation detected in the transaction")) /\
    (forall ops,
        status tx_receipt = 1 ->
        Universal.decode_inputs codec (input tx) = Return ops ->
        (2 <= length (filter Phases.is_swap_kind ops))%nat ->
        run = Raise (ValueError "Multiple swap operations detected in the transaction")) /\
    (forall s,
        run = Return (Success s) ->
        status tx_receipt = 1 /\
        exists ops,
          Universal.decode_inputs codec (input tx) = Return ops /\
          length (filter Phases.is_swap_kind ops) = 1%nat).
Proof.
  intros codec web3 tx tx_hash tx_receipt run. subst run.
  split; [| split].
  - intros ops Hstatus Hdecoded Hnone.
    rewrite analyse_by_phases by exact Hstatus.
    now rewrite (swap_parameters_none codec tx ops Hdecoded Hnone).
  - intros ops Hstatus Hdecoded Hmany.
    rewrite analyse_by_phases by exact Hstatus.
    now rewrite (swap_parameters_multiple codec tx ops Hdecoded Hmany).
  - intros s Hrun.
    assert (Hstatus : status tx_receipt = 1).
    { destruct (Z.eq_dec (status tx_receipt) 1) as [E|E]; [exact E |].
      unfold Universal.analyse_trade_by_receipt in Hrun.
      apply Z.eqb_neq in E. rewrite E in Hrun. discriminate Hrun. }
    split; [exact Hstatus |].
    rewrite analyse_by_phases in Hrun by exact Hstatus.
    apply bind_Return_inv in Hrun as (parameters & Hparams & _).
    destruct (Universal.decode_inputs codec (input tx)) as [ops|e] eqn:Hdecoded.
    + exists ops. split; [reflexivity |].
      now apply (swap_parameters_Return_inv codec tx ops Hdecoded parameters).
    + unfold Phases.swap_parameters in Hparams.
      rewrite Hdecoded in Hparams. discriminate Hparams.
Qed.

Lemma swap_count_decides_rejection_witness :
  Universal.analyse_trade_by_receipt
    (Samples.codec [Samples.wrap_eth]) (Samples.provider None [])
    (Samples.tx_to Samples.other_address) Samples.tx_hash (Samples.receipt 1)
  = Raise (ValueError "No swap operation detected in the transaction") /\
  Universal.analyse_trade_by_receipt
    (Samples.codec [Samples.v2_swap; Samples.wrap_eth; Samples.v3_swap])
    (Samples.provider None [])
    (Samples.tx_to Samples.other_address) Samples.tx_hash (Samples.receipt 1)
  = Raise (ValueError "Multiple swap operations detected in the transaction").
Proof.
  split.
  - apply (proj1 (swap_count_decides_rejection
                    (Samples.codec [Samples.wrap_eth]) (Samples.provider None [])
                    (Samples.tx_to Samples.other_address) Samples.tx_hash
                    (Samples.receipt 1)) [Samples.wrap_eth]);
      reflexivity.
  - apply (proj1 (proj2 (swap_count_decides_rejection
                    (Samples.codec [Samples.v2_swap; Samples.wrap_eth; Samples.v3_swap])
                    (Samples.provider None [])
                    (Samples.tx_to Samples.other_address) Samples.tx_hash
                    (Samples.receipt 1)))
             [Samples.v2_swap; Samples.wrap_eth; Samples.v3_swap]);
      [reflexivity | reflexivity | vm_compute; lia].
Defined.

(** C4.  On a receipt whose status is not 1 the analysis returns a failure
    record: its gas used is the receipt's, its effective gas price is the
    receipt's (0 when the receipt carries none), and its reason is what
    the revert-reason fetcher answered, absent when it obtained none.  No
    exception comes out of this path. *)
Theorem failed_status_returns_TradeFail :
  forall (codec : Universal.RouterCodec) (web3 : Web3) (tx : Tx)
         (tx_hash : string) (tx_receipt : TxReceipt),
    status tx_receipt <> 1 ->
    exists f,
      Universal.analyse_trade_by_receipt codec web3 tx tx_hash tx_receipt
      = Return (Fail f) /\
      Fail.gas_used f = gasUsed tx_receipt /\
      (forall p, effectiveGasPrice tx_receipt = Some p ->
                 Fail.effective_gas_price f = p) /\
      (effectiveGasPrice tx_receipt = None -> Fail.effective_gas_price f = 0) /\
      Fail.revert_reason f = fetch_transaction_revert_reason web3 tx_hash /\
      (revert_reasons web3 tx_hash = None -> Fail.revert_reason f = None).
Proof.
  intros codec web3 tx tx_hash tx_receipt Hstatus.
  apply Z.eqb_neq in Hstatus.
  unfold Universal.analyse_trade_by_receipt. rewrite Hstatus. cbn [negb].
  eexists. split; [reflexivity |]. cbn.
  split; [reflexivity |].
  split; [intros p Hp; now rewrite Hp |].
  split; [intros Hp; now rewrite Hp |].
  split; [reflexivity |].
  intros Hnone. unfold fetch_transaction_revert_reason. exact Hnone.
Qed.

Lemma failed_status_returns_TradeFail_witness :
  status (Samples.receipt 0) <> 1 /\
  exists f,
    Universal.analyse_trade_by_receipt
      (Samples.codec []) (Samples.provider None [])
      (Samples.tx_to Samples.other_address) Samples.tx_hash (Samples.receipt 0)
    = Return (Fail f) /\
    Fail.gas_used f = 152000 /\ Fail.revert_reason f = None.
Proof.
  assert (Hstatus : status (Samples.receipt 0) <> 1) by discriminate.
  split; [exact Hstatus |].
  destruct (failed_status_returns_TradeFail
              (Samples.codec []) (Samples.provider None [])
              (Samples.tx_to Samples.other_address) Samples.tx_hash
              (Samples.receipt 0) Hstatus)
    as (f & Hrun & Hgas & _ & _ & _ & Hreason).
  exists f. split; [exact Hrun |]. split; [exact Hgas |].
  apply Hreason. reflexivity.
Defined.

(** C7.  Both recognised but unsupported branches end in
    [NotImplementedError]: the dispatcher, on a chain that is a key of the
    v3 table, for a destination that the v2 check does not match, that is
    not listed for the chain in the v3 table, and that the universal check
    matches; and the universal analysis, for a status-1 transaction whose
    only swap command is of the v2 kind.  That exception is neither the
    unknown-router nor a swap-count [ValueError], and no record is
    returned.  On a chain that is no key of the v3 table the dispatcher
    does not reach the universal check after a v2 miss: it raises
    [KeyError]. *)
Theorem unsupported_branches_raise_NotImplementedError :
  (forall (imp : Swap.Imports) (web3 : Web3) (chain : string) (tx : Tx)
          (tx_hash : string) (tx_receipt : TxReceipt) routers,
      Constant.dex_router !! chain = Some routers ->
      (forall r, r ∈ routers -> Constant.address r <> to tx) ->
      Swap.contains_v2_router imp chain (to tx) = Return false ->
      Swap.contains_universal_router imp chain (to tx) = Return true ->
      Swap.analyse_trade_by_receipt imp web3 chain tx tx_hash tx_receipt
      = Raise (NotImplementedError "Universal router not implemented")) /\
  (forall (imp : Swap.Imports) (web3 : Web3) (chain : string) (tx : Tx)
          (tx_hash : string) (tx_receipt : TxReceipt),
      Constant.dex_router !! chain = None ->
      Swap.contains_v2_router imp chain (to tx) = Return false ->
      Swap.analyse_trade_by_receipt imp web3 chain tx tx_hash tx_receipt
      = Raise (KeyError chain)) /\
  (forall (codec : Universal.RouterCodec) (web3 : Web3) (tx : Tx)
          (tx_hash : string) (tx_receipt : TxReceipt) ops,
      status tx_receipt = 1 ->
      Universal.decode_inputs codec (input tx) = Return ops ->
      length (filter Phases.is_swap_kind ops) = 1%nat ->
      length (filter Universal.is_v2_swap ops) = 1%nat ->
      Universal.analyse_trade_by_receipt codec web3 tx tx_hash tx_receipt
      = Raise (NotImplementedError "Uniswap V2 trades are not supported yet")) /\
  (forall msg msg', NotImplementedError msg <> ValueError msg').
Proof.
  split; [| split; [| split]].
  - intros imp web3 chain tx tx_hash tx_receipt routers Htable Hout H2 HU.
    apply dispatch_universal; [exact H2 | | exact HU].
    rewrite (contains_v3_router_known _ _ _ Htable).
    f_equal. now apply router_loop_false.
  - intros imp web3 chain tx tx_hash tx_receipt Hchain H2.
    apply dispatch_v3_raises; [exact H2 |].
    now apply contains_v3_router_unknown_chain.
  - intros codec web3 tx tx_hash tx_receipt ops Hstatus Hdecoded Hone Hv2.
    rewrite analyse_by_phases by exact Hstatus.
    now rewrite (swap_parameters_single_v2 codec tx ops Hdecoded Hone Hv2).
  - intros msg msg'. discriminate.
Qed.

Lemma unsupported_branches_raise_NotImplementedError_witness :
  Swap.analyse_trade_by_receipt (Samples.imports false true)
    (Samples.provider None []) "base"
    (Samples.tx_to Samples.other_address) Samples.tx_hash (Samples.receipt 1)
  = Raise (NotImplementedError "Universal router not implemented") /\
  Universal.analyse_trade_by_receipt
    (Samples.codec [Samples.wrap_eth; Samples.v2_swap])
    (Samples.provider None [])
    (Samples.tx_to Samples.other_address) Samples.tx_hash (Samples.receipt 1)
  = Raise (NotImplementedError "Uniswap V2 trades are not supported yet").
Proof.
  destruct unsupported_branches_raise_NotImplementedError as (Hd & _ & Hu & _).
  split.
  - apply (Hd _ _ _ _ _ _
             [ {| Constant.chain := "base";
                  Constant.address := Samples.odos;
                  Constant.name := "Odos:Router V2" |} ]);
      [reflexivity | | reflexivity | reflexivity].
    intros r Hr. apply list_elem_of_singleton in Hr. subst r. discriminate.
  - apply (Hu _ _ _ _ _ [Samples.wrap_eth; Samples.v2_swap]); reflexivity.
Defined.

(** Against C7 as worded for every destination of the universal table:
    on "ethereum", which is no key of the v3 table, a destination that the
    universal check matches does not end in [NotImplementedError] but in
    [KeyError]. *)
Lemma universal_destination_unknown_chain_counterexample :
  Swap.contains_v2_router (Samples.imports false true) "ethereum"
    Samples.other_address = Return false /\
  Swap.contains_universal_router (Samples.imports false true) "ethereum"
    Samples.other_address = Return true /\
  Swap.analyse_trade_by_receipt (Samples.imports false true)
    (Samples.provider None []) "ethereum" (Samples.tx_to Samples.other_address)
    Samples.tx_hash (Samples.receipt 1)
  = Raise (KeyError "ethereum") /\
  Swap.analyse_trade_by_receipt (Samples.imports false true)
    (Samples.provider None []) "ethereum" (Samples.tx_to Samples.other_address)
    Samples.tx_hash (Samples.receipt 1)
  <> Raise (NotImplementedError "Universal router not implemented").
Proof.
  split; [reflexivity |]. split; [reflexivity |].
  split; [reflexivity | discriminate].
Qed.

(** C2.  For a decoded Swap event carrying [amount0], [amount1] and
    [tick]: unless one amount is strictly positive and the other strictly
    negative, no record is returned, and once the pool details are fetched
    the failure is the assertion "Unsupported swap type".  A returned
    record has the positive amount as its input amount and the absolute
    value of the negative amount as its output amount; and when the sign
    test passes and the collaborators answer, a record is returned. *)
Theorem sign_pair_decides_swap_shape :
  forall (web3 : Web3) (gas_price gas : Z) (route : list string)
         (min_out : pyval) (event : Event.EventData) (amount0 amount1 tick : Z),
    Event.args event !! "amount0" = Some amount0 ->
    Event.args event !! "amount1" = Some amount1 ->
    Event.args event !! "tick" = Some tick ->
    let run := Universal.get_v3_by_event web3 gas_price gas route min_out event in
    let sign_pair := (0 < amount0 /\ amount1 < 0) \/ (amount0 < 0 /\ 0 < amount1) in
    (~ sign_pair ->
     (forall s, run <> Return s) /\
     (forall pool,
         fetch_pool_details web3 (Event.address event) = Return pool ->
         run = Raise (AssertionError "Unsupported swap type"))) /\
    (forall s,
        run = Return s ->
        (0 < amount0 /\ amount1 < 0 /\
         amount_in s = amount0 /\ amount_out s = Z.abs amount1) \/
        (amount0 < 0 /\ 0 < amount1 /\
         amount_in s = amount1 /\ amount_out s = Z.abs amount0)) /\
    (sign_pair ->
     forall pool path_first path_last in_token_details out_token_details
            price lp_fee_paid,
       fetch_pool_details web3 (Event.address event) = Return pool ->
       index_first route = Return path_first ->
       fetch_erc20_details web3 path_first = Return in_token_details ->
       index_last route = Return path_last ->
       fetch_erc20_details web3 path_last = Return out_token_details ->
       Pool.convert_price_to_human pool tick = Return price ->
       Universal.lp_fee (Z.max amount0 amount1) (Pool.fee pool)
         (Token.decimals in_token_details) = Return lp_fee_paid ->
       exists s,
         run = Return s /\
         amount_in s = Z.max amount0 amount1 /\ 0 < amount_in s /\
         amount_out s = Z.abs (Z.min amount0 amount1) /\ 0 < amount_out s).
Proof.
  intros web3 gas_price gas route min_out event amount0 amount1 tick
    H0 H1 Ht run sign_pair.
  pose proof (get_v3_by_event_Return_inv web3 gas_price gas route min_out
                event amount0 amount1 tick H0 H1 Ht) as Hinv.
  cbn zeta in Hinv. fold run in Hinv.
  assert (Hcases : forall s, run = Return s ->
            (0 < amount0 /\ amount1 < 0 /\
             amount_in s = amount0 /\ amount_out s = Z.abs amount1) \/
            (amount0 < 0 /\ 0 < amount1 /\
             amount_in s = amount1 /\ amount_out s = Z.abs amount0)).
  { intros s Hs. destruct (Hinv s Hs) as (Hshape & Hin & Hout & _).
    rewrite Hin, Hout.
    destruct Hshape as [[Hpos Hneg]|[Hneg Hpos]]; [left | right];
      (split; [assumption |]); (split; [assumption |]);
      destruct (Z.ltb_spec 0 amount0), (Z.ltb_spec amount0 0); lia. }
  split; [| split].
  - intros Hshape. split.
    + intros s Hs. apply Hshape. exact (proj1 (Hinv s Hs)).
    + intros pool Hpool.
      exact (get_v3_by_event_unsupported web3 gas_price gas route min_out
               event amount0 amount1 tick H0 H1 Ht pool Hshape Hpool).
  - exact Hcases.
  - intros Hshape pool path_first path_last in_token_details
      out_token_details price lp_fee_paid Hpool Hfirst Hin Hlast Hout
      Hprice Hfee.
    assert (Hmax : (if 0 <? amount0 then amount0 else amount1)
                   = Z.max amount0 amount1).
    { destruct (Z.ltb_spec 0 amount0); destruct Hshape as [[? ?]|[? ?]]; lia. }
    rewrite <- Hmax in Hfee.
    pose proof (get_v3_by_event_supported web3 gas_price gas route min_out
                  event amount0 amount1 tick H0 H1 Ht pool path_first
                  path_last in_token_details out_token_details price
                  lp_fee_paid Hshape Hpool Hfirst Hin Hlast Hout Hprice Hfee)
      as Hrun.
    cbn zeta in Hrun. fold run in Hrun.
    eexists. split; [exact Hrun |]. cbn.
    destruct (Z.ltb_spec 0 amount0), (Z.ltb_spec amount0 0);
      destruct Hshape as [[? ?]|[? ?]]; lia.
Qed.

Lemma sign_pair_decides_swap_shape_witness :
  Universal.get_v3_by_event (Samples.provider None []) 1000000 152000
    [Samples.weth; Samples.usdc] (PyInt 1500) (Samples.log "Swap" 5 7).1
  = Raise (AssertionError "Unsupported swap type") /\
  exists s,
    Universal.get_v3_by_event (Samples.provider None []) 1000000 152000
      [Samples.weth; Samples.usdc] (PyInt 1500)
      (Samples.log "Swap" (-1600) 1000000000000000000).1
    = Return s /\
    amount_in s = 1000000000000000000 /\ amount_out s = 1600.
Proof.
  split.
  - refine (proj2 (proj1 (sign_pair_decides_swap_shape
                     (Samples.provider None []) 1000000 152000
                     [Samples.weth; Samples.usdc] (PyInt 1500)
                     (Samples.log "Swap" 5 7).1 5 7 (-201234)
                     eq_refl eq_refl eq_refl) _) Samples.pool eq_refl).
    lia.
  - destruct (proj2 (proj2 (sign_pair_decides_swap_shape
                     (Samples.provider None []) 1000000 152000
                     [Samples.weth; Samples.usdc] (PyInt 1500)
                     (Samples.log "Swap" (-1600) 1000000000000000000).1
                     (-1600) 1000000000000000000 (-201234)
                     eq_refl eq_refl eq_refl))
                (or_intror (conj eq_refl eq_refl))
                Samples.pool Samples.weth Samples.usdc
                {| Token.decimals := 18 |} {| Token.decimals := 18 |}
                {| coefficient := -201234; exponent := 0 |}
                (S754_finite false 4611686018427388 (-63))
                eq_refl eq_refl eq_refl eq_refl eq_refl eq_refl eq_refl)
      as (s & Hrun & Hin & _ & Hout & _).
    exists s. split; [exact Hrun |]. split; [exact Hin | exact Hout].
Defined.

(** Every list with a "Swap" event splits at its last "Swap" event. *)
Lemma last_swap_event_exists (events : list (Event.EventData * gmap string Z)) :
  (exists t, t ∈ events /\ Event.event t.1 = "Swap") ->
  exists before e x after,
    events = (before ++ (e, x) :: after)%list /\
    Event.event e = "Swap" /\
    (forall t, t ∈ after -> Event.event t.1 <> "Swap").
Proof.
  induction events as [|t0 rest IH]; intros (t & Hin & Ht).
  - now apply not_elem_of_nil in Hin.
  - destruct (decide (Exists Universal.is_swap_event rest)) as [Hrest|Hrest].
    + apply Exists_exists in Hrest as (t' & Hin' & Ht').
      destruct IH as (before & e & x & after & -> & He & Hafter);
        [now exists t' |].
      now exists (t0 :: before), e, x, after.
    + assert (Hnone : forall t', t' ∈ rest -> Event.event t'.1 <> "Swap").
      { intros t' Hin' Ht'. apply Hrest, Exists_exists. now exists t'. }
      apply elem_of_cons in Hin as [Heq | Hin]; [| now destruct (Hnone t Hin)].
      subst t0. destruct t as [e x]. now exists [], e, x, rest.
Qed.

(** C3.  For a status-1 transaction whose swap parameters were decoded:
    however the ordered event list splits into a "Swap" event [e] followed
    by no other "Swap" event, the outcome is the record built from exactly
    [e], and whatever comes before it, other "Swap" events included, plays
    no part; and every event list that holds a "Swap" event splits that
    way. *)
Theorem last_swap_event_is_used :
  forall (codec : Universal.RouterCodec) (web3 : Web3) (tx : Tx)
         (tx_hash : string) (tx_receipt : TxReceipt)
         (route : list string) (min_out : pyval)
         (events : list (Event.EventData * gmap string Z)),
    status tx_receipt = 1 ->
    Phases.swap_parameters codec tx = Return (route, min_out) ->
    get_tx_events web3 tx_hash = Return events ->
    (forall before e x after,
        events = (before ++ (e, x) :: after)%list ->
        Event.event e = "Swap" ->
        (forall t, t ∈ after -> Event.event t.1 <> "Swap") ->
        Universal.analyse_trade_by_receipt codec web3 tx tx_hash tx_receipt =
        (s ← Universal.get_v3_by_event web3
               (default 0 (effectiveGasPrice tx_receipt)) (gasUsed tx_receipt)
               route min_out e;
         Return (Success s))) /\
    ((exists t, t ∈ events /\ Event.event t.1 = "Swap") ->
     exists before e x after,
       events = (before ++ (e, x) :: after)%list /\
       Event.event e = "Swap" /\
       (forall t, t ∈ after -> Event.event t.1 <> "Swap")).
Proof.
  intros codec web3 tx tx_hash tx_receipt route min_out events
    Hstatus Hparams Hevents.
  split; [| apply last_swap_event_exists].
  intros before e x after -> He Hafter.
  rewrite analyse_by_phases by exact Hstatus.
  rewrite Hparams. step_result.
  rewrite Hevents. step_result.
  rewrite (select_swap_event_last tx_receipt before after e x He Hafter).
  reflexivity.
Qed.

(** Two "Swap" events between a transfer and a trailing event: the record
    carries the amounts of the second one. *)
Lemma last_swap_event_is_used_witness :
  Universal.analyse_trade_by_receipt
    (Samples.codec [Samples.v3_swap])
    (Samples.provider None
       [Samples.log "Transfer" 1 1;
        Samples.log "Swap" 300 (-20);
        Samples.log "Swap" (-1600) 1000000000000000000;
        Samples.log "Transfer" 2 2])
    (Samples.tx_to Samples.other_address) Samples.tx_hash (Samples.receipt 1)
  = Return (Success Samples.swapped).
Proof.
  rewrite (proj1 (last_swap_event_is_used
             (Samples.codec [Samples.v3_swap])
             (Samples.provider None
                [Samples.log "Transfer" 1 1;
                 Samples.log "Swap" 300 (-20);
                 Samples.log "Swap" (-1600) 1000000000000000000;
                 Samples.log "Transfer" 2 2])
             (Samples.tx_to Samples.other_address) Samples.tx_hash
             (Samples.receipt 1)
             [Samples.weth; Samples.usdc] (PyInt 1500) _
             eq_refl eq_refl eq_refl)
           [Samples.log "Transfer" 1 1; Samples.log "Swap" 300 (-20)]
           (Samples.log "Swap" (-1600) 1000000000000000000).1
           (Samples.log "Swap" (-1600) 1000000000000000000).2
           [Samples.log "Transfer" 2 2]
           eq_refl eq_refl).
  - vm_compute. reflexivity.
  - intros t Ht. apply list_elem_of_singleton in Ht. subst t. discriminate.
Defined.

(** C10.  For a status-1 transaction whose swap parameters were decoded
    and whose event list is not empty but holds no "Swap" event, the
    analysis raises the index error of [[-1]] on the empty filtered list.
    The assertion that follows the indexing measures the selected pair,
    which has two components, so it holds for every pair; the assertion
    error of the selection can only come from the first assertion, on an
    empty unfiltered list. *)
Theorem no_swap_event_raises_IndexError :
  forall (codec : Universal.RouterCodec) (web3 : Web3) (tx : Tx)
         (tx_hash : string) (tx_receipt : TxReceipt)
         (route : list string) (min_out : pyval)
         (events : list (Event.EventData * gmap string Z)),
    status tx_receipt = 1 ->
    Phases.swap_parameters codec tx = Return (route, min_out) ->
    get_tx_events web3 tx_hash = Return events ->
    events <> [] ->
    (forall t, t ∈ events -> Event.event t.1 <> "Swap") ->
    Universal.analyse_trade_by_receipt codec web3 tx tx_hash tx_receipt
    = Raise (IndexError "list index out of range") /\
    (forall (t : Event.EventData * gmap string Z) msg,
        py_assert (0 <? tuple_len t)%nat msg = Return tt) /\
    (forall events' msg,
        Phases.select_swap_event tx_receipt events' = Raise (AssertionError msg) ->
        events' = []).
Proof.
  intros codec web3 tx tx_hash tx_receipt route min_out events
    Hstatus Hparams Hevents Hne Hnone.
  split; [| split].
  - rewrite analyse_by_phases by exact Hstatus.
    rewrite Hparams. step_result.
    rewrite Hevents. step_result.
    now rewrite (select_swap_event_no_swap tx_receipt events Hne Hnone).
  - intros t msg. reflexivity.
  - apply select_swap_event_AssertionError.
Qed.

Lemma no_swap_event_raises_IndexError_witness :
  Universal.analyse_trade_by_receipt
    (Samples.codec [Samples.v3_swap])
    (Samples.provider None [Samples.log "Transfer" 1 1])
    (Samples.tx_to Samples.other_address) Samples.tx_hash (Samples.receipt 1)
  = Raise (IndexError "list index out of range").
Proof.
  refine (proj1 (no_swap_event_raises_IndexError
                   (Samples.codec [Samples.v3_swap])
                   (Samples.provider None [Samples.log "Transfer" 1 1])
                   (Samples.tx_to Samples.other_address) Samples.tx_hash
                   (Samples.receipt 1)
                   [Samples.weth; Samples.usdc] (PyInt 1500)
                   [Samples.log "Transfer" 1 1]
                   eq_refl eq_refl eq_refl _ _)).
  - discriminate.
  - intros t Ht. apply list_elem_of_singleton in Ht. subst t. discriminate.
Defined.

(** C5.  The route and the minimum output amount are read from the first
    decoded command, not from the detected swap command.  With a wrapping
    command ahead of the single v3 swap, the analysis stops on the missing
    "path" key of the wrapping command, although the swap command carries
    both keys; with the same swap command in first position its own
    values reach the record. *)
Theorem parameters_read_from_first_command :
  Universal.analyse_trade_by_receipt
    (Samples.codec [Samples.wrap_eth; Samples.v3_swap])
    (Samples.provider None [Samples.log "Swap" (-1600) 1000000000000000000])
    (Samples.tx_to Samples.other_address) Samples.tx_hash (Samples.receipt 1)
  = Raise (KeyError "path") /\
  filter Universal.is_v3_swap [Samples.wrap_eth; Samples.v3_swap]
  = [Samples.v3_swap] /\
  Samples.v3_swap.2 !! "path" = Some (PyBytes "weth-usdc") /\
  Samples.v3_swap.2 !! "amountOutMin" = Some (PyInt 1500) /\
  exists s,
    Universal.analyse_trade_by_receipt
      (Samples.codec [Samples.v3_swap; Samples.wrap_eth])
      (Samples.provider None [Samples.log "Swap" (-1600) 1000000000000000000])
      (Samples.tx_to Samples.other_address) Samples.tx_hash (Samples.receipt 1)
    = Return (Success s) /\
    amount_out_min s = PyInt 1500 /\
    path s = [Samples.weth; Samples.usdc].
Proof.
  split; [vm_compute; reflexivity |].
  split; [vm_compute; reflexivity |].
  split; [vm_compute; reflexivity |].
  split; [vm_compute; reflexivity |].
  eexists. split; [vm_compute; reflexivity |].
  split; reflexivity.
Qed.

(** A success record of the analysis is the record [get_v3_by_event]
    built from one of the transaction's events. *)
Lemma analyse_Success_inv (codec : Universal.RouterCodec) (web3 : Web3)
    (tx : Tx) (tx_hash : string) (tx_receipt : TxReceipt) (s : TradeSuccess) :
  Universal.analyse_trade_by_receipt codec web3 tx tx_hash tx_receipt
  = Return (Success s) ->
  exists route min_out events event,
    Phases.swap_parameters codec tx = Return (route, min_out) /\
    get_tx_events web3 tx_hash = Return events /\
    Phases.select_swap_event tx_receipt events = Return event /\
    Universal.get_v3_by_event web3
      (default 0 (effectiveGasPrice tx_receipt)) (gasUsed tx_receipt)
      route min_out event = Return s.
Proof.
  intros Hrun.
  assert (Hstatus : status tx_receipt = 1).
  { destruct (Z.eq_dec (status tx_receipt) 1) as [E|E]; [exact E |].
    unfold Universal.analyse_trade_by_receipt in Hrun.
    apply Z.eqb_neq in E. rewrite E in Hrun. discriminate Hrun. }
  rewrite analyse_by_phases in Hrun by exact Hstatus.
  apply bind_Return_inv in Hrun as ([route min_out] & Hparams & Hrun).
  apply bind_Return_inv in Hrun as (events & Hevents & Hrun).
  apply bind_Return_inv in Hrun as (event & Hevent & Hrun).
  apply bind_Return_inv in Hrun as (s' & Hbuilt & Hrun).
  injection Hrun as ->.
  now exists route, min_out, events, event.
Qed.


(** ** Worked examples *)

(** The table of the source: the listed address, with the exact spelling
    of the table, is found; a mixed-case spelling of the same hexadecimal
    digits is another string. *)
Example contains_v3_router_listed :
  Constant.contains_v3_router "base" "0x19ceead7105607cd444f5ad10dd51356436095a1"
  = Return true.
Proof. reflexivity. Qed.

Example contains_v3_router_mixed_case :
  Constant.contains_v3_router "base" "0x19cEeAd7105607Cd444F5ad10dD51356436095a1"
  = Return false.
Proof. reflexivity. Qed.

(** Integer-to-float conversion: exact below 2^53, ties to even above, and
    an error from the midpoint past the largest finite value on. *)
Example float_of_int_exact :
  Universal.float_of_int 1000000000000000000
  = Return (S754_finite false 7812500000000000 7).
Proof. reflexivity. Qed.

Example float_of_int_tie_to_even :
  Universal.float_of_int (2 ^ 53 + 1) = Universal.float_of_int (2 ^ 53) /\
  Universal.float_of_int (2 ^ 53 + 3) = Universal.float_of_int (2 ^ 53 + 4).
Proof. split; vm_compute; reflexivity. Qed.

Example float_of_int_overflow :
  Universal.float_of_int (2 ^ 1024 - 2 ^ 970 - 1)
  = Return (S754_finite false 9007199254740991 971) /\
  Universal.float_of_int (2 ^ 1024 - 2 ^ 970)
  = Raise (OverflowError "int too large to convert to float").
Proof. split; vm_compute; reflexivity. Qed.

(** An empty event list stops at the first assertion. *)
Example analyse_without_events :
  exists msg,
    Universal.analyse_trade_by_receipt
      (Samples.codec [Samples.v3_swap]) (Samples.provider None [])
      (Samples.tx_to Samples.other_address) Samples.tx_hash (Samples.receipt 1)
    = Raise (AssertionError msg).
Proof. eexists. vm_compute. reflexivity. Qed.

(** A reverted transaction with a decoded reason. *)
Example analyse_reverted :
  Universal.analyse_trade_by_receipt
    (Samples.codec [Samples.v3_swap])
    (Samples.provider (Some "Too little received") [])
    (Samples.tx_to Samples.other_address) Samples.tx_hash (Samples.receipt 0)
  = Return (Fail {| Fail.gas_used := 152000;
                    Fail.effective_gas_price := 1000000;
                    Fail.revert_reason := Some "Too little received" |}).
Proof. reflexivity. Qed.

(** * Further properties

    Properties of the same code beyond the claims above, numbered X1 to
    X17. *)

Ltac step_result_in H :=
  repeat first
    [ rewrite bind_Return in H
    | rewrite bind_Raise in H
    | progress cbn beta iota zeta in H ].

(** ** Inversions *)

Lemma Return_inj {A : Type} (a b : A) : Return a = Return b -> a = b.
Proof. congruence. Qed.

Lemma getitem_Return_inv {V : Type} (d : gmap string V) (key : string) (v : V) :
  getitem d key = Return v -> d !! key = Some v.
Proof. unfold getitem. destruct (d !! key); now intros [= <-]. Qed.

Lemma index_last_Return_inv {A : Type} (l : list A) (x : A) :
  index_last l = Return x -> last l = Some x.
Proof. unfold index_last. destruct (last l); now intros [= <-]. Qed.

(** Everything a returned record was built from. *)
Lemma get_v3_by_event_Return_full (web3 : Web3) (gas_price gas : Z)
    (route : list string) (min_out : pyval) (event : Event.EventData)
    (s : TradeSuccess) :
  Universal.get_v3_by_event web3 gas_price gas route min_out event = Return s ->
  exists amount0 amount1 tick pool path_first in_token path_last out_token
         quoted paid,
    Event.args event !! "amount0" = Some amount0 /\
    Event.args event !! "amount1" = Some amount1 /\
    Event.args event !! "tick" = Some tick /\
    ((0 < amount0 /\ amount1 < 0) \/ (amount0 < 0 /\ 0 < amount1)) /\
    fetch_pool_details web3 (Event.address event) = Return pool /\
    index_first route = Return path_first /\
    fetch_erc20_details web3 path_first = Return in_token /\
    index_last route = Return path_last /\
    fetch_erc20_details web3 path_last = Return out_token /\
    Pool.convert_price_to_human pool tick = Return quoted /\
    Universal.lp_fee (Z.max amount0 amount1) (Pool.fee pool)
      (Token.decimals in_token) = Return paid /\
    s = {| gas_used := gas;
           effective_gas_price := gas_price;
           path := route;
           amount_in := Z.max amount0 amount1;
           amount_out_min := min_out;
           amount_out := - Z.min amount0 amount1;
           price := quoted;
           amount_in_decimals := Token.decimals in_token;
           amount_out_decimals := Token.decimals out_token;
           token0 := Pool.token0 pool;
           token1 := Pool.token1 pool;
           lp_fee_paid := paid |}.
Proof.
  intros Hrun. unfold Universal.get_v3_by_event in Hrun. cbn zeta in Hrun.
  apply bind_Return_inv in Hrun as (amount0 & H0 & Hrun).
  apply bind_Return_inv in Hrun as (amount1 & H1 & Hrun).
  apply bind_Return_inv in Hrun as (tick & Ht & Hrun).
  apply bind_Return_inv in Hrun as (pool & Hpool & Hrun).
  apply bind_Return_inv in Hrun as (u & Hshape & Hrun).
  apply py_assert_Return_inv in Hshape.
  apply bind_Return_inv in Hrun as (u' & _ & Hrun).
  apply bind_Return_inv in Hrun as (path_first & Hfirst & Hrun).
  apply bind_Return_inv in Hrun as (in_token & Hin & Hrun).
  apply bind_Return_inv in Hrun as (path_last & Hlast & Hrun).
  apply bind_Return_inv in Hrun as (out_token & Hout & Hrun).
  apply bind_Return_inv in Hrun as (quoted & Hprice & Hrun).
  apply bind_Return_inv in Hrun as (paid & Hpaid & Hrun).
  apply getitem_Return_inv in H0, H1, Ht.
  assert (Hsign : (0 < amount0 /\ amount1 < 0) \/ (amount0 < 0 /\ 0 < amount1)).
  { apply orb_true_iff in Hshape as [H|H];
      apply andb_true_iff in H as [Ha Hb]; apply Z.ltb_lt in Ha, Hb; lia. }
  assert (Hmax : (if 0 <? amount0 then amount0 else amount1)
                 = Z.max amount0 amount1)
    by (destruct (Z.ltb_spec 0 amount0); lia).
  assert (Hmin : Z.abs (if amount0 <? 0 then amount0 else amount1)
                 = - Z.min amount0 amount1)
    by (destruct (Z.ltb_spec amount0 0); lia).
  rewrite Hmax in Hpaid, Hrun. rewrite Hmin in Hrun.
  injection Hrun as <-.
  exists amount0, amount1, tick, pool, path_first, in_token, path_last,
    out_token, quoted, paid.
  repeat (split; [assumption |]). reflexivity.
Qed.

(** A selected event is one of the events, and it is named "Swap". *)
Lemma select_swap_event_Return_inv (tx_receipt : TxReceipt)
    (events : list (Event.EventData * gmap string Z)) (e : Event.EventData) :
  Phases.select_swap_event tx_receipt events = Return e ->
  Event.event e = "Swap" /\ exists x, (e, x) ∈ events.
Proof.
  unfold Phases.select_swap_event. intros Hsel.
  apply bind_Return_inv in Hsel as (u & _ & Hsel).
  apply bind_Return_inv in Hsel as ([e' x] & Hlast & Hsel).
  apply bind_Return_inv in Hsel as (u' & _ & Hsel).
  injection Hsel as <-. cbn [fst].
  apply index_last_Return_inv in Hlast.
  apply last_Some in Hlast as [l' Hl'].
  assert (Hin : (e', x) ∈ filter Universal.is_swap_event events).
  { rewrite Hl'. apply elem_of_app. right. apply list_elem_of_here. }
  apply list_elem_of_filter in Hin as [Hswap Hin].
  split; [exact Hswap | now exists x].
Qed.

(** ** Further properties of the v3 table and the dispatcher *)

Lemma dex_router_lookup (chain : string) :
  Constant.dex_router !! chain =
  if decide (chain = "base")
  then Some [ {| Constant.chain := "base";
                 Constant.address := "0x19ceead7105607cd444f5ad10dd51356436095a1";
                 Constant.name := "Odos:Router V2" |} ]
  else None.
Proof.
  unfold Constant.dex_router. destruct (decide (chain = "base")) as [->|Hne].
  - apply lookup_singleton_eq.
  - apply lookup_singleton_ne. congruence.
Qed.

(** X1.  The shipped table decides [contains_v3_router] completely: it
    answers true for the one listed spelling on chain "base" only, false
    for every other string on "base", and raises [KeyError] with the
    chain for every other chain. *)
Theorem contains_v3_router_characterised :
  forall (chain addr : string),
    (Constant.contains_v3_router chain addr = Return true <->
     chain = "base" /\ addr = "0x19ceead7105607cd444f5ad10dd51356436095a1") /\
    (Constant.contains_v3_router chain addr = Return false <->
     chain = "base" /\ addr <> "0x19ceead7105607cd444f5ad10dd51356436095a1") /\
    (forall e, Constant.contains_v3_router chain addr = Raise e <->
               chain <> "base" /\ e = KeyError chain).
Proof.
  intros chain addr.
  pose proof (dex_router_lookup chain) as Hlookup.
  destruct (decide (chain = "base")) as [->|Hne].
  - rewrite (contains_v3_router_known _ addr _ Hlookup).
    cbn [Constant.router_loop Constant.address].
    destruct (String.eqb_spec "0x19ceead7105607cd444f5ad10dd51356436095a1" addr)
      as [<-|Hother].
    + split; [| split].
      * split; [intros _; now split | reflexivity].
      * split; [discriminate | intros [_ Habsurd]; now destruct Habsurd].
      * intros e. split; [discriminate | intros [Habsurd _]; now destruct Habsurd].
    + split; [| split].
      * split; [discriminate | intros [_ ->]; now destruct Hother].
      * split; [intros _; split; [reflexivity | congruence] | reflexivity].
      * intros e. split; [discriminate | intros [Habsurd _]; now destruct Habsurd].
  - rewrite (contains_v3_router_unknown_chain _ addr Hlookup).
    split; [| split].
    + split; [discriminate | intros [Habsurd _]; contradiction].
    + split; [discriminate | intros [Habsurd _]; contradiction].
    + intros e. split.
      * intros [= <-]. now split.
      * intros [_ ->]. reflexivity.
Qed.

(** X2.  The dispatcher builds no result of its own: whatever it returns
    was returned by the v2 analysis for a destination the v2 check
    matched, or by the v3 analysis for the one listed address on chain
    "base" after the v2 check answered false. *)
Theorem dispatcher_returns_only_delegated_results :
  forall (imp : Swap.Imports) (web3 : Web3) (chain : string) (tx : Tx)
         (tx_hash : string) (tx_receipt : TxReceipt) (outcome : trade),
    Swap.analyse_trade_by_receipt imp web3 chain tx tx_hash tx_receipt
    = Return outcome ->
    (Swap.contains_v2_router imp chain (to tx) = Return true /\
     exists v2,
       Swap.v2_analysis imp web3 (to tx) = Return v2 /\
       Swap.v2_analyse_trade_by_receipt imp web3 v2 tx tx_hash tx_receipt
       = Return outcome) \/
    (Swap.contains_v2_router imp chain (to tx) = Return false /\
     chain = "base" /\
     to tx = "0x19ceead7105607cd444f5ad10dd51356436095a1" /\
     exists v3,
       Swap.v3_analysis imp web3 (to tx) = Return v3 /\
       Swap.v3_analyse_trade_by_receipt imp web3 v3 tx tx_hash tx_receipt
       = Return outcome).
Proof.
  intros imp web3 chain tx tx_hash tx_receipt outcome Hrun.
  unfold Swap.analyse_trade_by_receipt in Hrun. cbn zeta in Hrun.
  apply bind_Return_inv in Hrun as ([|] & H2 & Hrun).
  - left. split; [exact H2 |].
    apply bind_Return_inv in Hrun as (v2 & Hv2 & Hrun). now exists v2.
  - right. split; [exact H2 |].
    apply bind_Return_inv in Hrun as ([|] & H3 & Hrun).
    + pose proof (dex_router_lookup chain) as Hlookup.
      destruct (decide (chain = "base")) as [->|Hne].
      * rewrite (contains_v3_router_known _ _ _ Hlookup) in H3.
        apply Return_inj, router_loop_true in H3 as (r & Hin & Hr).
        apply list_elem_of_singleton in Hin. subst r.
        cbn [Constant.address] in Hr.
        split; [reflexivity |]. split; [symmetry; exact Hr |].
        apply bind_Return_inv in Hrun as (v3 & Hv3 & Hrun). now exists v3.
      * rewrite (contains_v3_router_unknown_chain _ _ Hlookup) in H3.
        discriminate H3.
    + apply bind_Return_inv in Hrun as ([|] & _ & Hrun);
        cbn beta iota in Hrun; discriminate Hrun.
Qed.

Lemma dispatcher_returns_only_delegated_results_witness :
  Swap.analyse_trade_by_receipt (Samples.imports false false)
    (Samples.provider None []) "base" (Samples.tx_to Samples.odos)
    Samples.tx_hash (Samples.receipt 1)
  = Return Samples.reported /\
  Samples.odos = "0x19ceead7105607cd444f5ad10dd51356436095a1".
Proof.
  assert (Hrun :
    Swap.analyse_trade_by_receipt (Samples.imports false false)
      (Samples.provider None []) "base" (Samples.tx_to Samples.odos)
      Samples.tx_hash (Samples.receipt 1)
    = Return Samples.reported) by reflexivity.
  split; [exact Hrun |].
  destruct (dispatcher_returns_only_delegated_results _ _ _ _ _ _ _ Hrun)
    as [[Habsurd _] | (_ & _ & Hto & _)].
  - discriminate Habsurd.
  - exact Hto.
Defined.

(** ** Further properties of the universal analysis *)

(** X3.  The kind of record follows the receipt status alone: a failure
    record is returned exactly when the status is not 1. *)
Theorem failure_record_iff_status_not_1 :
  forall (codec : Universal.RouterCodec) (web3 : Web3) (tx : Tx)
         (tx_hash : string) (tx_receipt : TxReceipt),
    (exists f,
        Universal.analyse_trade_by_receipt codec web3 tx tx_hash tx_receipt
        = Return (Fail f)) <->
    status tx_receipt <> 1.
Proof.
  intros codec web3 tx tx_hash tx_receipt. split.
  - intros [f Hrun] Hstatus.
    rewrite analyse_by_phases in Hrun by exact Hstatus.
    apply bind_Return_inv in Hrun as (parameters & _ & Hrun).
    apply bind_Return_inv in Hrun as (events & _ & Hrun).
    apply bind_Return_inv in Hrun as (event & _ & Hrun).
    apply bind_Return_inv in Hrun as (s & _ & Hrun).
    discriminate Hrun.
  - intros Hstatus. apply Z.eqb_neq in Hstatus.
    unfold Universal.analyse_trade_by_receipt. rewrite Hstatus. cbn [negb].
    eexists. reflexivity.
Qed.

Lemma swap_parameters_Return_full (codec : Universal.RouterCodec) (tx : Tx)
    (route : list string) (min_out : pyval) :
  Phases.swap_parameters codec tx = Return (route, min_out) ->
  exists ops op first_op path_bytes,
    Universal.decode_inputs codec (input tx) = Return ops /\
    filter Universal.is_v3_swap ops = [op] /\
    filter Universal.is_v2_swap ops = [] /\
    index_first ops = Return first_op /\
    first_op.2 !! "path" = Some path_bytes /\
    Universal.v3_path codec (Universal.fn_name op.1) path_bytes = Return route /\
    first_op.2 !! "amountOutMin" = Some min_out.
Proof.
  intros Hparams.
  destruct (Universal.decode_inputs codec (input tx)) as [ops|e] eqn:Hdecoded;
    [| unfold Phases.swap_parameters in Hparams;
       rewrite Hdecoded in Hparams; discriminate Hparams].
  destruct (swap_parameters_Return_inv codec tx ops Hdecoded _ Hparams)
    as (_ & Hv2 & op & Hv3).
  rewrite (swap_parameters_single_v3 codec tx ops Hdecoded op Hv3 Hv2) in Hparams.
  apply bind_Return_inv in Hparams as (first_op & Hfirst & Hparams).
  apply bind_Return_inv in Hparams as (path_bytes & Hbytes & Hparams).
  apply bind_Return_inv in Hparams as (route' & Hroute & Hparams).
  apply bind_Return_inv in Hparams as (min_out' & Hmin & Hparams).
  injection Hparams as <- <-.
  apply getitem_Return_inv in Hbytes, Hmin.
  now exists ops, op, first_op, path_bytes.
Qed.

(** X4.  A success record echoes its inputs: its gas fields are the
    receipt's (price 0 when the receipt has none), its route is the
    decoding, under the swap command's name, of the "path" bytes of the
    first decoded command, and its minimum output is that command's
    "amountOutMin". *)
Theorem success_record_echoes_receipt_and_call_input :
  forall (codec : Universal.RouterCodec) (web3 : Web3) (tx : Tx)
         (tx_hash : string) (tx_receipt : TxReceipt) (s : TradeSuccess),
    Universal.analyse_trade_by_receipt codec web3 tx tx_hash tx_receipt
    = Return (Success s) ->
    gas_used s = gasUsed tx_receipt /\
    effective_gas_price s = default 0 (effectiveGasPrice tx_receipt) /\
    exists ops op first_op path_bytes,
      Universal.decode_inputs codec (input tx) = Return ops /\
      filter Universal.is_v3_swap ops = [op] /\
      index_first ops = Return first_op /\
      first_op.2 !! "path" = Some path_bytes /\
      Universal.v3_path codec (Universal.fn_name op.1) path_bytes
      = Return (path s) /\
      first_op.2 !! "amountOutMin" = Some (amount_out_min s).
Proof.
  intros codec web3 tx tx_hash tx_receipt s Hrun.
  apply analyse_Success_inv in Hrun
    as (route & min_out & events & event & Hparams & _ & _ & Hbuilt).
  apply get_v3_by_event_Return_full in Hbuilt
    as (a0 & a1 & tick & pool & pf & tin & pl & tout & quoted & paid
        & _ & _ & _ & _ & _ & _ & _ & _ & _ & _ & _ & ->).
  cbn [gas_used effective_gas_price path amount_out_min].
  split; [reflexivity |]. split; [reflexivity |].
  apply swap_parameters_Return_full in Hparams
    as (ops & op & first_op & path_bytes & Hd & Hv3 & _ & Hf & Hp & Hr & Hm).
  now exists ops, op, first_op, path_bytes.
Qed.

Lemma success_record_echoes_receipt_and_call_input_witness :
  Universal.analyse_trade_by_receipt
    (Samples.codec [Samples.v3_swap])
    (Samples.provider None [Samples.log "Swap" (-1600) 1000000000000000000])
    (Samples.tx_to Samples.other_address) Samples.tx_hash (Samples.receipt 1)
  = Return (Success Samples.swapped) /\
  gas_used Samples.swapped = gasUsed (Samples.receipt 1).
Proof.
  assert (Hrun :
    Universal.analyse_trade_by_receipt
      (Samples.codec [Samples.v3_swap])
      (Samples.provider None [Samples.log "Swap" (-1600) 1000000000000000000])
      (Samples.tx_to Samples.other_address) Samples.tx_hash (Samples.receipt 1)
    = Return (Success Samples.swapped)) by (vm_compute; reflexivity).
  split; [exact Hrun |].
  exact (proj1 (success_record_echoes_receipt_and_call_input _ _ _ _ _ _ Hrun)).
Defined.

(** X5.  A success record is built from an event of the transaction that
    is named "Swap": its two pool tokens are those of the pool at that
    event's address, its price is that pool's conversion of the event's
    tick, and its output decimals are those of the last token of the
    route. *)
Theorem success_record_comes_from_a_swap_event :
  forall (codec : Universal.RouterCodec) (web3 : Web3) (tx : Tx)
         (tx_hash : string) (tx_receipt : TxReceipt) (s : TradeSuccess),
    Universal.analyse_trade_by_receipt codec web3 tx tx_hash tx_receipt
    = Return (Success s) ->
    exists events event x pool tick path_last out_token,
      get_tx_events web3 tx_hash = Return events /\
      (event, x) ∈ events /\
      Event.event event = "Swap" /\
      fetch_pool_details web3 (Event.address event) = Return pool /\
      token0 s = Pool.token0 pool /\
      token1 s = Pool.token1 pool /\
      Event.args event !! "tick" = Some tick /\
      Pool.convert_price_to_human pool tick = Return (price s) /\
      last (path s) = Some path_last /\
      fetch_erc20_details web3 path_last = Return out_token /\
      amount_out_decimals s = Token.decimals out_token.
Proof.
  intros codec web3 tx tx_hash tx_receipt s Hrun.
  apply analyse_Success_inv in Hrun
    as (route & min_out & events & event & _ & Hevents & Hsel & Hbuilt).
  apply select_swap_event_Return_inv in Hsel as (Hswap & x & Hin).
  apply get_v3_by_event_Return_full in Hbuilt
    as (a0 & a1 & tick & pool & pf & tin & pl & tout & quoted & paid
        & _ & _ & Htick & _ & Hpool & _ & _ & Hlast & Hout & Hprice & _ & ->).
  cbn [token0 token1 price path amount_out_decimals].
  apply index_last_Return_inv in Hlast.
  exists events, event, x, pool, tick, pl, tout.
  repeat (split; [first [assumption | reflexivity] |]). reflexivity.
Qed.

Lemma success_record_comes_from_a_swap_event_witness :
  Universal.analyse_trade_by_receipt
    (Samples.codec [Samples.v3_swap])
    (Samples.provider None
       [Samples.log "Transfer" 1 1;
        Samples.log "Swap" (-1600) 1000000000000000000])
    (Samples.tx_to Samples.other_address) Samples.tx_hash (Samples.receipt 1)
  = Return (Success Samples.swapped) /\
  exists event x,
    (event, x) ∈ [Samples.log "Transfer" 1 1;
                  Samples.log "Swap" (-1600) 1000000000000000000] /\
    Event.event event = "Swap".
Proof.
  assert (Hrun :
    Universal.analyse_trade_by_receipt
      (Samples.codec [Samples.v3_swap])
      (Samples.provider None
         [Samples.log "Transfer" 1 1;
          Samples.log "Swap" (-1600) 1000000000000000000])
      (Samples.tx_to Samples.other_address) Samples.tx_hash (Samples.receipt 1)
    = Return (Success Samples.swapped)) by (vm_compute; reflexivity).
  split; [exact Hrun |].
  destruct (success_record_comes_from_a_swap_event _ _ _ _ _ _ Hrun)
    as (events & event & x & _ & _ & _ & _ & Hevents & Hin & Hswap & _).
  apply Return_inj in Hevents. subst events.
  exists event, x. split; assumption.
Defined.

(** X6.  Both amounts of a success record are strictly positive: the
    input amount is the larger and the output amount the negated smaller
    of the two signed amounts of the selected event. *)
Theorem success_record_amounts_are_positive :
  forall (codec : Universal.RouterCodec) (web3 : Web3) (tx : Tx)
         (tx_hash : string) (tx_receipt : TxReceipt) (s : TradeSuccess),
    Universal.analyse_trade_by_receipt codec web3 tx tx_hash tx_receipt
    = Return (Success s) ->
    0 < amount_in s /\ 0 < amount_out s /\
    exists events event amount0 amount1,
      get_tx_events web3 tx_hash = Return events /\
      Phases.select_swap_event tx_receipt events = Return event /\
      Event.args event !! "amount0" = Some amount0 /\
      Event.args event !! "amount1" = Some amount1 /\
      amount_in s = Z.max amount0 amount1 /\
      amount_out s = - Z.min amount0 amount1.
Proof.
  intros codec web3 tx tx_hash tx_receipt s Hrun.
  apply analyse_Success_inv in Hrun
    as (route & min_out & events & event & _ & Hevents & Hsel & Hbuilt).
  apply get_v3_by_event_Return_full in Hbuilt
    as (a0 & a1 & tick & pool & pf & tin & pl & tout & quoted & paid
        & H0 & H1 & _ & Hsign & _ & _ & _ & _ & _ & _ & _ & ->).
  cbn [amount_in amount_out].
  split; [lia |]. split; [lia |].
  now exists events, event, a0, a1.
Qed.

Lemma success_record_amounts_are_positive_witness :
  Universal.analyse_trade_by_receipt
    (Samples.codec [Samples.v3_swap])
    (Samples.provider None [Samples.log "Swap" (-1600) 1000000000000000000])
    (Samples.tx_to Samples.other_address) Samples.tx_hash (Samples.receipt 1)
  = Return (Success Samples.swapped) /\
  0 < amount_in Samples.swapped /\ 0 < amount_out Samples.swapped.
Proof.
  assert (Hrun :
    Universal.analyse_trade_by_receipt
      (Samples.codec [Samples.v3_swap])
      (Samples.provider None [Samples.log "Swap" (-1600) 1000000000000000000])
      (Samples.tx_to Samples.other_address) Samples.tx_hash (Samples.receipt 1)
    = Return (Success Samples.swapped)) by (vm_compute; reflexivity).
  split; [exact Hrun |].
  destruct (success_record_amounts_are_positive _ _ _ _ _ _ Hrun)
    as (Hin & Hout & _).
  split; assumption.
Defined.

(** ** Further properties of [get_v3_by_event] *)

(** X7.  The three event arguments are read in the order [amount0],
    [amount1], [tick] before anything is asked of the provider: the first
    one missing raises [KeyError] with its name, whatever the provider
    would answer. *)
Theorem missing_event_argument_raises_KeyError :
  forall (web3 : Web3) (gas_price gas : Z) (route : list string)
         (min_out : pyval) (event : Event.EventData),
    let run := Universal.get_v3_by_event web3 gas_price gas route min_out event in
    (Event.args event !! "amount0" = None ->
     run = Raise (KeyError "amount0")) /\
    (is_Some (Event.args event !! "amount0") ->
     Event.args event !! "amount1" = None ->
     run = Raise (KeyError "amount1")) /\
    (is_Some (Event.args event !! "amount0") ->
     is_Some (Event.args event !! "amount1") ->
     Event.args event !! "tick" = None ->
     run = Raise (KeyError "tick")).
Proof.
  intros web3 gas_price gas route min_out event run. subst run.
  unfold Universal.get_v3_by_event. cbn zeta.
  split; [| split].
  - intros H0. now rewrite (getitem_None _ _ H0).
  - intros [a0 H0] H1.
    rewrite (getitem_Some _ _ _ H0). step_result.
    now rewrite (getitem_None _ _ H1).
  - intros [a0 H0] [a1 H1] Ht.
    rewrite (getitem_Some _ _ _ H0). step_result.
    rewrite (getitem_Some _ _ _ H1). step_result.
    now rewrite (getitem_None _ _ Ht).
Qed.

(** A "Swap" event of a v2 pair has other argument names. *)
Lemma missing_event_argument_raises_KeyError_witness :
  Universal.get_v3_by_event (Samples.provider None []) 1000000 152000
    [Samples.weth; Samples.usdc] (PyInt 1500)
    {| Event.event := "Swap";
       Event.address := "0x88a43bbdf9d098eec7bceda4e2494615dfd9bb9c";
       Event.args := {[ "amount0In" := 5; "amount1In" := 0;
                        "amount0Out" := 0; "amount1Out" := 7 ]} |}
  = Raise (KeyError "amount0").
Proof.
  apply (proj1 (missing_event_argument_raises_KeyError
                  (Samples.provider None []) 1000000 152000
                  [Samples.weth; Samples.usdc] (PyInt 1500) _)).
  reflexivity.
Defined.

(** X8.  With an empty route the record cannot be built: once the sign
    test has passed, indexing the route raises the index error. *)
Theorem empty_route_raises_IndexError :
  forall (web3 : Web3) (gas_price gas : Z) (min_out : pyval)
         (event : Event.EventData) (amount0 amount1 tick : Z)
         (pool : Pool.PoolDetails),
    Event.args event !! "amount0" = Some amount0 ->
    Event.args event !! "amount1" = Some amount1 ->
    Event.args event !! "tick" = Some tick ->
    fetch_pool_details web3 (Event.address event) = Return pool ->
    (0 < amount0 /\ amount1 < 0) \/ (amount0 < 0 /\ 0 < amount1) ->
    Universal.get_v3_by_event web3 gas_price gas [] min_out event
    = Raise (IndexError "list index out of range").
Proof.
  intros web3 gas_price gas min_out event amount0 amount1 tick pool
    H0 H1 Ht Hpool Hsign.
  pose proof (get_v3_by_event_prefix web3 gas_price gas [] min_out event
                amount0 amount1 tick H0 H1 Ht) as Hprefix.
  cbn zeta in Hprefix. rewrite Hprefix, Hpool. step_result.
  apply (sign_pair_test amount0 amount1) in Hsign. rewrite Hsign.
  cbn [py_assert]. step_result.
  assert (Hneg : ((if amount0 <? 0 then amount0 else amount1) <? 0) = true).
  { apply orb_true_iff in Hsign as [H|H];
      apply andb_true_iff in H as [Ha Hb]; apply Z.ltb_lt in Ha, Hb;
      destruct (Z.ltb_spec amount0 0); apply Z.ltb_lt; lia. }
  rewrite Hneg. reflexivity.
Qed.

Lemma empty_route_raises_IndexError_witness :
  Universal.get_v3_by_event (Samples.provider None []) 1000000 152000
    [] (PyInt 1500) (Samples.log "Swap" (-1600) 1000000000000000000).1
  = Raise (IndexError "list index out of range").
Proof.
  apply (empty_route_raises_IndexError
           (Samples.provider None []) 1000000 152000 (PyInt 1500)
           (Samples.log "Swap" (-1600) 1000000000000000000).1
           (-1600) 1000000000000000000 (-201234) Samples.pool
           eq_refl eq_refl eq_refl eq_refl).
  right. split; reflexivity.
Defined.

(** X9.  The second assertion, on the sign of the output amount, never
    fails: when no collaborator raises an assertion error, the only
    assertion error the function raises is "Unsupported swap type". *)
Theorem only_the_sign_pair_assertion_fails :
  forall (web3 : Web3) (gas_price gas : Z) (route : list string)
         (min_out : pyval) (event : Event.EventData) (msg : string),
    (forall a m, fetch_pool_details web3 a <> Raise (AssertionError m)) ->
    (forall a m, fetch_erc20_details web3 a <> Raise (AssertionError m)) ->
    (forall a pool t m,
        fetch_pool_details web3 a = Return pool ->
        Pool.convert_price_to_human pool t <> Raise (AssertionError m)) ->
    Universal.get_v3_by_event web3 gas_price gas route min_out event
    = Raise (AssertionError msg) ->
    msg = "Unsupported swap type".
Proof.
  intros web3 gas_price gas route min_out event msg Hpool Herc Hconv Hrun.
  unfold Universal.get_v3_by_event in Hrun. cbn zeta in Hrun.
  unfold getitem in Hrun.
  destruct (Event.args event !! "amount0") as [amount0|]; [| discriminate Hrun].
  destruct (Event.args event !! "amount1") as [amount1|]; [| discriminate Hrun].
  destruct (Event.args event !! "tick") as [tick|]; [| discriminate Hrun].
  step_result_in Hrun.
  destruct (fetch_pool_details web3 (Event.address event)) as [pool|e] eqn:Ep;
    [| injection Hrun as ->; now destruct (Hpool _ _ Ep)].
  step_result_in Hrun.
  destruct ((0 <? amount0) && (amount1 <? 0) || (amount0 <? 0) && (0 <? amount1))
    eqn:Hsign; [| now injection Hrun as <-].
  cbn [py_assert] in Hrun. step_result_in Hrun.
  assert (Hneg : ((if amount0 <? 0 then amount0 else amount1) <? 0) = true).
  { apply orb_true_iff in Hsign as [H|H];
      apply andb_true_iff in H as [Ha Hb]; apply Z.ltb_lt in Ha, Hb;
      destruct (Z.ltb_spec amount0 0); apply Z.ltb_lt; lia. }
  rewrite Hneg in Hrun. cbn [py_assert] in Hrun. step_result_in Hrun.
  destruct (index_first route) as [path_first|e] eqn:Ef;
    [| destruct route;
       [injection Ef as <-; discriminate Hrun | discriminate Ef]].
  step_result_in Hrun.
  destruct (fetch_erc20_details web3 path_first) as [tin|e] eqn:Ein;
    [| injection Hrun as ->; now destruct (Herc _ _ Ein)].
  step_result_in Hrun.
  destruct (index_last route) as [path_last|e] eqn:El;
    [| unfold index_last in El; destruct (last route);
       [discriminate El | injection El as <-; discriminate Hrun]].
  step_result_in Hrun.
  destruct (fetch_erc20_details web3 path_last) as [tout|e] eqn:Eout;
    [| injection Hrun as ->; now destruct (Herc _ _ Eout)].
  step_result_in Hrun.
  destruct (Pool.convert_price_to_human pool tick) as [quoted|e] eqn:Eq;
    [| injection Hrun as ->; now destruct (Hconv _ _ _ _ Ep Eq)].
  step_result_in Hrun.
  unfold Universal.lp_fee, Universal.float_of_int in Hrun.
  repeat match type of Hrun with
         | context [match ?x with _ => _ end] => destruct x
         end; discriminate Hrun.
Qed.

Lemma only_the_sign_pair_assertion_fails_witness :
  exists msg,
    Universal.get_v3_by_event (Samples.provider None []) 1000000 152000
      [Samples.weth; Samples.usdc] (PyInt 1500) (Samples.log "Swap" 0 7).1
    = Raise (AssertionError msg) /\
    msg = "Unsupported swap type".
Proof.
  eexists. split; [vm_compute; reflexivity |].
  apply (only_the_sign_pair_assertion_fails
           (Samples.provider None []) 1000000 152000
           [Samples.weth; Samples.usdc] (PyInt 1500)
           (Samples.log "Swap" 0 7).1).
  - intros a m. discriminate.
  - intros a m. discriminate.
  - intros a pool t m Hfetched Hraise.
    apply Return_inj in Hfetched. subst pool. discriminate Hraise.
  - vm_compute. reflexivity.
Defined.

(** X10.  A transaction rejected by its call input costs no request to
    the provider: when decoding or the swap-command checks raise, the
    analysis raises the same for every provider. *)
Theorem rejected_call_input_skips_the_provider :
  forall (codec : Universal.RouterCodec) (tx : Tx) (tx_hash : string)
         (tx_receipt : TxReceipt) (e : exn),
    status tx_receipt = 1 ->
    Phases.swap_parameters codec tx = Raise e ->
    forall web3 : Web3,
      Universal.analyse_trade_by_receipt codec web3 tx tx_hash tx_receipt
      = Raise e.
Proof.
  intros codec tx tx_hash tx_receipt e Hstatus Hparams web3.
  rewrite analyse_by_phases by exact Hstatus.
  now rewrite Hparams.
Qed.

Lemma rejected_call_input_skips_the_provider_witness :
  Universal.analyse_trade_by_receipt
    {| Universal.decode_inputs :=
         fun _ => Raise (OtherError "ValueError" "selector not found");
       Universal.v3_path := fun _ _ => Return [] |}
    (Samples.provider None [Samples.log "Swap" (-1600) 1000000000000000000])
    (Samples.tx_to Samples.other_address) Samples.tx_hash (Samples.receipt 1)
  = Raise (OtherError "ValueError" "selector not found").
Proof.
  apply rejected_call_input_skips_the_provider; reflexivity.
Defined.

(** X11.  With the single v3 swap as the first decoded command and no
    other swap command behind it, the route and the minimum output are
    decoded from the swap command's own arguments. *)
Theorem swap_first_reads_its_own_arguments :
  forall (codec : Universal.RouterCodec) (tx : Tx)
         (op : Universal.UrFunction * gmap string pyval)
         (rest : list (Universal.UrFunction * gmap string pyval)),
    Universal.decode_inputs codec (input tx) = Return (op :: rest) ->
    Universal.is_v3_swap op ->
    (forall x, x ∈ rest -> ~ Phases.is_swap_kind x) ->
    Phases.swap_parameters codec tx =
    (path_bytes ← getitem op.2 "path";
     route ← Universal.v3_path codec (Universal.fn_name op.1) path_bytes;
     min_out ← getitem op.2 "amountOutMin";
     Return (route, min_out)).
Proof.
  intros codec tx op rest Hdecoded Hop Hrest.
  assert (Hv3 : filter Universal.is_v3_swap (op :: rest) = [op]).
  { rewrite filter_cons_True by exact Hop. f_equal.
    apply filter_none. intros x Hx H3. apply (Hrest x Hx).
    apply swap_kind_split. now left. }
  assert (Hv2 : filter Universal.is_v2_swap (op :: rest) = []).
  { rewrite filter_cons_False
      by (intros H2; exact (swap_kind_disjoint op Hop H2)).
    apply filter_none. intros x Hx H2. apply (Hrest x Hx).
    apply swap_kind_split. now right. }
  rewrite (swap_parameters_single_v3 codec tx (op :: rest) Hdecoded op Hv3 Hv2).
  reflexivity.
Qed.

Lemma swap_first_reads_its_own_arguments_witness :
  Phases.swap_parameters
    (Samples.codec [Samples.v3_swap; Samples.wrap_eth])
    (Samples.tx_to Samples.other_address)
  = (path_bytes ← getitem Samples.v3_swap.2 "path";
     route ← Universal.v3_path
               (Samples.codec [Samples.v3_swap; Samples.wrap_eth])
               (Universal.fn_name Samples.v3_swap.1) path_bytes;
     min_out ← getitem Samples.v3_swap.2 "amountOutMin";
     Return (route, min_out)).
Proof.
  apply (swap_first_reads_its_own_arguments
           (Samples.codec [Samples.v3_swap; Samples.wrap_eth])
           (Samples.tx_to Samples.other_address)
           Samples.v3_swap [Samples.wrap_eth] eq_refl).
  - unfold Universal.is_v3_swap. apply list_elem_of_here.
  - intros x Hx. apply list_elem_of_singleton in Hx. subst x.
    unfold Phases.is_swap_kind. cbn.
    rewrite !elem_of_cons, elem_of_nil.
    intros [H|[H|[H|[H|[]]]]]; discriminate H.
Defined.

(** X12.  With one v3 swap command anywhere in the list and no v2 swap
    command, the two keys are looked up in the first decoded command: a
    first command without "path" raises [KeyError] "path"; with "path"
    decoded but without "amountOutMin" it raises [KeyError]
    "amountOutMin". *)
Theorem first_command_keys_are_required :
  forall (codec : Universal.RouterCodec) (web3 : Web3) (tx : Tx)
         (tx_hash : string) (tx_receipt : TxReceipt)
         (first_op op : Universal.UrFunction * gmap string pyval)
         (rest : list (Universal.UrFunction * gmap string pyval)),
    status tx_receipt = 1 ->
    Universal.decode_inputs codec (input tx) = Return (first_op :: rest) ->
    filter Universal.is_v3_swap (first_op :: rest) = [op] ->
    filter Universal.is_v2_swap (first_op :: rest) = [] ->
    let run := Universal.analyse_trade_by_receipt codec web3 tx tx_hash tx_receipt in
    (first_op.2 !! "path" = None -> run = Raise (KeyError "path")) /\
    (forall path_bytes route,
        first_op.2 !! "path" = Some path_bytes ->
        Universal.v3_path codec (Universal.fn_name op.1) path_bytes
        = Return route ->
        first_op.2 !! "amountOutMin" = None ->
        run = Raise (KeyError "amountOutMin")).
Proof.
  intros codec web3 tx tx_hash tx_receipt first_op op rest
    Hstatus Hdecoded Hv3 Hv2 run. subst run.
  rewrite analyse_by_phases by exact Hstatus.
  rewrite (swap_parameters_single_v3 codec tx _ Hdecoded op Hv3 Hv2).
  cbn [index_first]. step_result.
  split.
  - intros Hpath. now rewrite (getitem_None _ _ Hpath).
  - intros path_bytes route Hpath Hroute Hmin.
    rewrite (getitem_Some _ _ _ Hpath). step_result.
    rewrite Hroute. step_result.
    now rewrite (getitem_None _ _ Hmin).
Qed.

Lemma first_command_keys_are_required_witness :
  Universal.analyse_trade_by_receipt
    (Samples.codec
       [({| Universal.fn_name := "PERMIT2_PERMIT" |}, Samples.wrap_args);
        Samples.v3_swap])
    (Samples.provider None [Samples.log "Swap" (-1600) 1000000000000000000])
    (Samples.tx_to Samples.other_address) Samples.tx_hash (Samples.receipt 1)
  = Raise (KeyError "path").
Proof.
  apply (proj1 (first_command_keys_are_required
                  (Samples.codec
                     [({| Universal.fn_name := "PERMIT2_PERMIT" |},
                       Samples.wrap_args);
                      Samples.v3_swap])
                  (Samples.provider None
                     [Samples.log "Swap" (-1600) 1000000000000000000])
                  (Samples.tx_to Samples.other_address) Samples.tx_hash
                  (Samples.receipt 1)
                  ({| Universal.fn_name := "PERMIT2_PERMIT" |}, Samples.wrap_args)
                  Samples.v3_swap [Samples.v3_swap]
                  eq_refl eq_refl eq_refl eq_refl)).
  reflexivity.
Defined.

(** X16.  Analysed by hash, a reverted transaction yields the failure
    record of its fetched receipt, with the reason fetched for that hash:
    the call input is not decoded, so the decoder plays no part. *)
Theorem reverted_by_hash_returns_the_receipt_failure :
  forall (codec : Universal.RouterCodec) (eth : Eth) (web3 : Web3)
         (tx_hash : string) (tx : Tx) (tx_receipt : TxReceipt),
    get_transaction eth tx_hash = Return tx ->
    get_transaction_receipt eth tx_hash = Return tx_receipt ->
    status tx_receipt <> 1 ->
    UniversalEntry.analyse_trade_by_hash codec eth web3 tx_hash =
    Return (Fail {| Fail.gas_used := gasUsed tx_receipt;
                    Fail.effective_gas_price :=
                      default 0 (effectiveGasPrice tx_receipt);
                    Fail.revert_reason :=
                      fetch_transaction_revert_reason web3 tx_hash |}).
Proof.
  intros codec eth web3 tx_hash tx tx_receipt Htx Hreceipt Hstatus.
  unfold UniversalEntry.analyse_trade_by_hash.
  rewrite Htx. step_result. rewrite Hreceipt. step_result.
  apply Z.eqb_neq in Hstatus.
  unfold Universal.analyse_trade_by_receipt. now rewrite Hstatus.
Qed.

Lemma reverted_by_hash_returns_the_receipt_failure_witness :
  UniversalEntry.analyse_trade_by_hash (Samples.codec [Samples.v3_swap])
    (EntrySamples.eth 0) (Samples.provider (Some "Too little received") [])
    Samples.tx_hash
  = Return (Fail {| Fail.gas_used := 152000;
                    Fail.effective_gas_price := 1000000;
                    Fail.revert_reason := Some "Too little received" |}).
Proof.
  apply (reverted_by_hash_returns_the_receipt_failure
           (Samples.codec [Samples.v3_swap]) (EntrySamples.eth 0)
           (Samples.provider (Some "Too little received") [])
           Samples.tx_hash (Samples.tx_to Samples.other_address)
           (Samples.receipt 0) eq_refl eq_refl).
  discriminate.
Defined.

(** X17.  The dispatcher's entry point by hash accepts both spellings of
    a hash: a [str] that spells the bytes [b] gives the outcome of the
    bytes [b] themselves; a [str] that spells no bytes raises the
    constructor's error before anything is fetched. *)
Theorem hash_text_and_bytes_agree :
  forall (imp : Swap.Imports) (hexbytes : string -> result string)
         (eth : Eth) (web3 : Web3) (chain : string) (s : string),
    (forall b,
        hexbytes s = Return b ->
        SwapEntry.analyse_trade_by_hash imp hexbytes eth web3 chain
          (SwapEntry.HashStr s)
        = SwapEntry.analyse_trade_by_hash imp hexbytes eth web3 chain
            (SwapEntry.HashBytes b)) /\
    (forall e,
        hexbytes s = Raise e ->
        SwapEntry.analyse_trade_by_hash imp hexbytes eth web3 chain
          (SwapEntry.HashStr s)
        = Raise e).
Proof.
  intros imp hexbytes eth web3 chain s.
  unfold SwapEntry.analyse_trade_by_hash. split.
  - intros b Hb. now rewrite Hb.
  - intros e He. now rewrite He.
Qed.

(** X15.  The last "Swap" event alone decides the shape test: when its
    two amounts are not one strictly positive and one strictly negative
    and its pool is fetched, the analysis raises "Unsupported swap type",
    whatever "Swap" events precede it. *)
Theorem last_swap_event_decides_the_shape :
  forall (codec : Universal.RouterCodec) (web3 : Web3) (tx : Tx)
         (tx_hash : string) (tx_receipt : TxReceipt)
         (route : list string) (min_out : pyval)
         (before after : list (Event.EventData * gmap string Z))
         (e : Event.EventData) (x : gmap string Z)
         (amount0 amount1 tick : Z) (pool : Pool.PoolDetails),
    status tx_receipt = 1 ->
    Phases.swap_parameters codec tx = Return (route, min_out) ->
    get_tx_events web3 tx_hash = Return (before ++ (e, x) :: after)%list ->
    Event.event e = "Swap" ->
    (forall t, t ∈ after -> Event.event t.1 <> "Swap") ->
    Event.args e !! "amount0" = Some amount0 ->
    Event.args e !! "amount1" = Some amount1 ->
    Event.args e !! "tick" = Some tick ->
    fetch_pool_details web3 (Event.address e) = Return pool ->
    ~ ((0 < amount0 /\ amount1 < 0) \/ (amount0 < 0 /\ 0 < amount1)) ->
    Universal.analyse_trade_by_receipt codec web3 tx tx_hash tx_receipt
    = Raise (AssertionError "Unsupported swap type").
Proof.
  intros codec web3 tx tx_hash tx_receipt route min_out before after e x
    amount0 amount1 tick pool Hstatus Hparams Hevents He Hafter
    H0 H1 Ht Hpool Hshape.
  rewrite analyse_by_phases by exact Hstatus.
  rewrite Hparams. step_result.
  rewrite Hevents. step_result.
  rewrite (select_swap_event_last tx_receipt before after e x He Hafter).
  step_result.
  pose proof (get_v3_by_event_unsupported web3
                (default 0 (effectiveGasPrice tx_receipt)) (gasUsed tx_receipt)
                route min_out e amount0 amount1 tick H0 H1 Ht pool Hshape Hpool)
    as Hrun.
  cbn zeta in Hrun. cbn [fst snd]. now rewrite Hrun.
Qed.

Lemma last_swap_event_decides_the_shape_witness :
  Universal.analyse_trade_by_receipt
    (Samples.codec [Samples.v3_swap])
    (Samples.provider None
       [Samples.log "Swap" (-1600) 1000000000000000000;
        Samples.log "Swap" 5 7])
    (Samples.tx_to Samples.other_address) Samples.tx_hash (Samples.receipt 1)
  = Raise (AssertionError "Unsupported swap type").
Proof.
  apply (last_swap_event_decides_the_shape
           (Samples.codec [Samples.v3_swap])
           (Samples.provider None
              [Samples.log "Swap" (-1600) 1000000000000000000;
               Samples.log "Swap" 5 7])
           (Samples.tx_to Samples.other_address) Samples.tx_hash
           (Samples.receipt 1)
           [Samples.weth; Samples.usdc] (PyInt 1500)
           [Samples.log "Swap" (-1600) 1000000000000000000] []
           (Samples.log "Swap" 5 7).1 (Samples.log "Swap" 5 7).2
           5 7 (-201234) Samples.pool
           eq_refl eq_refl eq_refl eq_refl).
  - intros t Ht. now apply not_elem_of_nil in Ht.
  - reflexivity.
  - reflexivity.
  - reflexivity.
  - reflexivity.
  - lia.
Defined.

(** ** The fee computation: range and special rates *)

(** *** Binary64 rounding: ranges *)

Lemma digits2_pos_upper (p : positive) :
  Zpos p < 2 ^ Zpos (digits2_pos p).
Proof.
  induction p as [p IH|p IH|]; cbn [digits2_pos]; [| | cbn; lia];
    rewrite Pos2Z.inj_succ, Z.pow_succ_r by lia.
  - change (Z.pos p~1) with (2 * Z.pos p + 1). lia.
  - change (Z.pos p~0) with (2 * Z.pos p). lia.
Qed.

(** A value below [2 ^ k] has at most [k] digits. *)
Lemma Zdigits2_le (m k : Z) :
  0 <= m -> 0 <= k -> m < 2 ^ k -> Zdigits2 m <= k.
Proof.
  intros Hm Hk Hlt. destruct m as [|p|p]; cbn [Zdigits2]; try lia.
  pose proof (digits2_pos_bound p) as Hlow.
  destruct (Z_le_gt_dec (Zpos (digits2_pos p)) k) as [Hle|Hgt]; [exact Hle |].
  assert (2 ^ k <= 2 ^ (Zpos (digits2_pos p) - 1))
    by (apply Z.pow_le_mono_r; lia).
  lia.
Qed.

Lemma Zdigits2_upper (m : Z) : 0 <= m -> m < 2 ^ Zdigits2 m.
Proof.
  intros Hm. destruct m as [|p|p]; cbn [Zdigits2]; try lia.
  apply digits2_pos_upper.
Qed.

(** After the shift the mantissa fits the precision, and the exponent is
    the larger of the given one and the format's. *)
Lemma shr_fexp_range (m e : Z) (l : location) :
  0 <= m ->
  0 <= shr_m (shr_fexp prec emax m e l).1 < 2 ^ prec /\
  (shr_fexp prec emax m e l).2 = Z.max e (fexp prec emax (Zdigits2 m + e)).
Proof.
  intros Hm. unfold shr_fexp, shr.
  pose proof (Zdigits2_upper m Hm) as Hupper.
  assert (Hdigits : 0 <= Zdigits2 m)
    by (destruct m; cbn [Zdigits2]; lia).
  destruct (fexp prec emax (Zdigits2 m + e) - e) as [|n|n] eqn:En;
    cbn [fst snd]; rewrite ?shr_m_iter; rewrite ?shr_m_of_loc; try lia.
  - split; [| lia]. split; [lia |].
    eapply Z.lt_le_trans; [exact Hupper |].
    apply Z.pow_le_mono_r; [lia |].
    revert En. unfold fexp, SpecFloat.emin, prec, emax. lia.
  - split; [| lia]. split; [apply Z.div_pos; lia |].
    apply Z.div_lt_upper_bound; [lia |].
    rewrite <- Z.pow_add_r by (unfold prec; lia).
    eapply Z.lt_le_trans; [exact Hupper |].
    apply Z.pow_le_mono_r; [lia |].
    revert En. unfold fexp, SpecFloat.emin, prec, emax. lia.
  - split; [| lia]. split; [lia |].
    eapply Z.lt_le_trans; [exact Hupper |].
    apply Z.pow_le_mono_r; [lia |].
    revert En. unfold fexp, SpecFloat.emin, prec, emax. lia.
Qed.

Lemma round_nearest_even_le (m : Z) (l : location) :
  round_nearest_even m l <= m + 1.
Proof.
  destruct l as [|[]]; cbn [round_nearest_even]; try lia.
  destruct (Z.even m); lia.
Qed.

(** Below [2 ^ (emax - 1)], and with an exponent that leaves room for a
    carry, rounding does not overflow. *)
Lemma binary_round_aux_finite (s : bool) (m e : Z) (l : location) :
  0 <= m ->
  e <= emax - prec - 1 ->
  Zdigits2 m + e <= emax - 1 ->
  match binary_round_aux prec emax s m e l with
  | S754_zero _ | S754_finite _ _ _ => True
  | _ => False
  end.
Proof.
  intros Hm He Hvalue. unfold binary_round_aux.
  pose proof (shr_fexp_range m e l Hm) as [Hm' He'].
  destruct (shr_fexp prec emax m e l) as [mrs' e']. cbn [fst snd] in Hm', He'.
  pose proof (round_nearest_even_ge (shr_m mrs') (loc_of_shr_record mrs')) as Hge.
  pose proof (round_nearest_even_le (shr_m mrs') (loc_of_shr_record mrs')) as Hle.
  set (m1 := round_nearest_even (shr_m mrs') (loc_of_shr_record mrs')) in *.
  assert (Hm1 : 0 <= m1) by lia.
  pose proof (shr_fexp_range m1 e' loc_Exact Hm1) as [Hm'' He''].
  assert (Hd1 : Zdigits2 m1 <= prec + 1).
  { apply Zdigits2_le; [lia | unfold prec; lia |].
    rewrite Z.pow_add_r by (unfold prec; lia). lia. }
  destruct (shr_fexp prec emax m1 e' loc_Exact) as [mrs'' e''].
  cbn [fst snd] in Hm'', He''.
  destruct (shr_m mrs'') as [|q|q]; [exact I | | lia].
  assert (Hfit : e'' <= emax - prec).
  { subst e'' e'. revert He Hvalue Hd1.
    unfold fexp, SpecFloat.emin, prec, emax. lia. }
  apply Z.leb_le in Hfit. now rewrite Hfit.
Qed.

Lemma binary_round_finite (s : bool) (p : positive) :
  Zpos p < 2 ^ (emax - 1) ->
  match binary_round prec emax s p 0 with
  | S754_zero _ | S754_finite _ _ _ => True
  | _ => False
  end.
Proof.
  intros Hp. unfold binary_round, shl_align.
  assert (Hdigits : Zpos (digits2_pos p) <= emax - 1)
    by (apply (Zdigits2_le (Zpos p)); [lia | unfold emax; lia | exact Hp]).
  destruct (fexp prec emax (Z.pos (digits2_pos p) + 0) - 0) as [|d|d] eqn:Ed.
  - apply binary_round_aux_finite; cbn [Zdigits2]; unfold prec, emax in *; lia.
  - apply binary_round_aux_finite; cbn [Zdigits2]; unfold prec, emax in *; lia.
  - assert (Hfexp : fexp prec emax (Z.pos (digits2_pos p) + 0) = Z.neg d) by lia.
    rewrite Hfexp.
    apply binary_round_aux_finite; [lia | unfold prec, emax; lia |].
    assert (Hshift : Zpos (Pos.iter xO p d) = 2 ^ Zpos d * Zpos p).
    { change (Pos.iter xO p d) with (shift_pos d p).
      now rewrite shift_pos_correct, Z.pow_pos_fold. }
    assert (Zdigits2 (Zpos (Pos.iter xO p d)) <= Zpos (digits2_pos p) + Zpos d).
    { apply Zdigits2_le; [lia | lia |].
      rewrite Hshift, Z.pow_add_r by lia.
      pose proof (digits2_pos_upper p).
      assert (0 < 2 ^ Zpos d) by (apply Z.pow_pos_nonneg; lia).
      nia. }
    lia.
Qed.

(** Every integer below [2 ^ 1023] in absolute value converts. *)
Lemma float_of_int_in_range (z : Z) :
  Z.abs z < 2 ^ (emax - 1) ->
  exists f, Universal.float_of_int z = Return f.
Proof.
  intros Hz. unfold Universal.float_of_int, binary_normalize.
  destruct z as [|p|p].
  - eexists. reflexivity.
  - pose proof (binary_round_finite false p ltac:(lia)) as Hr.
    destruct (binary_round prec emax false p 0); try contradiction;
      eexists; reflexivity.
  - pose proof (binary_round_finite true p ltac:(lia)) as Hr.
    destruct (binary_round prec emax true p 0); try contradiction;
      eexists; reflexivity.
Qed.

(** X13.  The fee computation returns for every amount below [2 ^ 1023] in
    absolute value and every number of decimals up to 307: no overflow
    error for amounts of the ABI's 256-bit integers and [uint8]
    decimals. *)
Theorem lp_fee_returns_in_range :
  forall (amount_in : Z) (fee : spec_float) (decimals : N),
    Z.abs amount_in < 2 ^ 1023 ->
    (decimals <= 307)%N ->
    exists paid, Universal.lp_fee amount_in fee decimals = Return paid.
Proof.
  intros amount_in fee decimals Hamount Hdecimals.
  unfold Universal.lp_fee.
  destruct (float_of_int_in_range amount_in Hamount) as [a ->].
  assert (Hpow : Z.abs (10 ^ Z.of_N decimals) < 2 ^ (emax - 1)).
  { rewrite Z.abs_eq by (apply Z.pow_nonneg; lia).
    apply Z.le_lt_trans with (10 ^ 307); [apply Z.pow_le_mono_r; lia |].
    apply Z.ltb_lt. vm_compute. reflexivity. }
  destruct (float_of_int_in_range _ Hpow) as [d Hd].
  step_result. rewrite Hd. eexists. reflexivity.
Qed.

Lemma lp_fee_returns_in_range_witness :
  Z.abs (2 ^ 255 - 1) < 2 ^ 1023 /\ (255 <= 307)%N /\
  exists paid,
    Universal.lp_fee (2 ^ 255 - 1) (S754_finite false 4611686018427388 (-63)) 255
    = Return paid.
Proof.
  assert (H1 : Z.abs (2 ^ 255 - 1) < 2 ^ 1023)
    by (apply Z.ltb_lt; vm_compute; reflexivity).
  assert (H2 : (255 <= 307)%N) by lia.
  split; [exact H1 |]. split; [exact H2 |].
  exact (lp_fee_returns_in_range _ _ _ H1 H2).
Defined.

(** X14.  Special fee rates pass through the fee computation: a zero rate
    gives a zero fee of the same sign, an infinite rate an infinite fee of
    the same sign, and NaN gives NaN. *)
Theorem lp_fee_special_rates :
  forall (amount_in : Z) (fee paid : spec_float) (decimals : N),
    0 < amount_in ->
    Universal.lp_fee amount_in fee decimals = Return paid ->
    (forall sign, fee = S754_zero sign -> paid = S754_zero sign) /\
    (forall sign, fee = S754_infinity sign -> paid = S754_infinity sign) /\
    (fee = S754_nan -> paid = S754_nan).
Proof.
  intros amount_in fee paid decimals Hpositive Hpaid.
  unfold Universal.lp_fee in Hpaid.
  apply bind_Return_inv in Hpaid as (a & Ha & Hpaid).
  apply bind_Return_inv in Hpaid as (d & Hd & Hpaid).
  injection Hpaid as <-.
  apply float_of_int_positive in Ha as (ma & ea & ->); [| exact Hpositive].
  apply float_of_int_positive in Hd as (md & ed & ->);
    [| apply Z.pow_pos_nonneg; lia].
  split; [| split].
  - intros sign ->. now destruct sign.
  - intros sign ->. now destruct sign.
  - intros ->. reflexivity.
Qed.

Lemma lp_fee_special_rates_witness :
  0 < 1000000000000000000 /\
  exists paid,
    Universal.lp_fee 1000000000000000000 (S754_zero false) 18 = Return paid /\
    paid = S754_zero false.
Proof.
  assert (Hpositive : 0 < 1000000000000000000) by lia.
  assert (H0 : Universal.lp_fee 1000000000000000000 (S754_zero false) 18
               = Return (S754_zero false)) by (vm_compute; reflexivity).
  split; [exact Hpositive |].
  exists (S754_zero false). split; [exact H0 |].
  exact (proj1 (lp_fee_special_rates 1000000000000000000 (S754_zero false)
                  (S754_zero false) 18 Hpositive H0) false eq_refl).
Defined.

(** ** The integer-to-float conversion rounds to nearest, ties to even *)

Lemma shifted_start (m0 : Z) :
  0 <= m0 -> shifted m0 0 (shr_record_of_loc m0 loc_Exact).
Proof.
  intros Hm. exists 0. cbn. repeat split; try lia; try discriminate.
Qed.

Lemma shifted_step (m0 k : Z) (mrs : shr_record) :
  0 <= k -> shifted m0 k mrs -> shifted m0 (k + 1) (shr_1 mrs).
Proof.
  intros Hk (rem & Hrem & Hm & Hsplit & Hr & Hs). unfold shifted.
  rewrite Z.pow_add_r, Z.pow_1_r by lia.
  assert (Hpos : 0 < 2 ^ k) by (apply Z.pow_pos_nonneg; lia).
  set (P := 2 ^ k) in *.
  assert (Hsticky : orb (shr_r mrs) (shr_s mrs) = true <-> rem <> 0).
  { rewrite orb_true_iff, Hr, Hs. lia. }
  destruct mrs as [m r s]. cbn [shr_m shr_r shr_s] in *.
  destruct m as [|[p|p|]|p]; cbn [shr_1 shr_m shr_r shr_s]; try lia.
  - exists rem. rewrite Hsticky. repeat split; try lia; try discriminate.
  - exists (P + rem). rewrite Hsticky.
    change (Z.pos p~1) with (2 * Z.pos p + 1) in Hsplit.
    repeat split; try lia.
  - exists rem. rewrite Hsticky.
    change (Z.pos p~0) with (2 * Z.pos p) in Hsplit.
    repeat split; try lia; try discriminate.
  - exists (P + rem). rewrite Hsticky. repeat split; try lia.
Qed.

Lemma shifted_iter (m0 : Z) (n : positive) :
  forall k mrs,
    0 <= k -> shifted m0 k mrs ->
    shifted m0 (k + Zpos n) (SpecFloat.iter_pos shr_1 n mrs).
Proof.
  induction n as [n IH|n IH|]; intros k mrs Hk Hinv; cbn [SpecFloat.iter_pos].
  - replace (k + Z.pos n~1) with (k + 1 + Zpos n + Zpos n) by lia.
    apply IH; [lia |]. apply IH; [lia |]. now apply shifted_step.
  - replace (k + Z.pos n~0) with (k + Zpos n + Zpos n) by lia.
    apply IH; [lia |]. now apply IH.
  - now apply shifted_step.
Qed.

(** Rounding what the shifts have left: to the nearest, ties to even. *)
Lemma round_shifted (m0 k : Z) (mrs : shr_record) :
  0 <= k -> shifted m0 k mrs ->
  let m1 := round_nearest_even (shr_m mrs) (loc_of_shr_record mrs) in
  shr_m mrs <= m1 <= shr_m mrs + 1 /\
  2 * Z.abs (m0 - m1 * 2 ^ k) <= 2 ^ k /\
  (2 * Z.abs (m0 - m1 * 2 ^ k) = 2 ^ k -> Z.even m1 = true) /\
  (k = 0 -> m1 = m0).
Proof.
  intros Hk (rem & Hrem & Hm & Hsplit & Hr & Hs) m1. subst m1.
  assert (Hpos : 0 < 2 ^ k) by (apply Z.pow_pos_nonneg; lia).
  assert (Hk0 : k = 0 -> 2 ^ k = 1) by (intros ->; reflexivity).
  set (P := 2 ^ k) in *.
  destruct mrs as [m r s]. cbn [shr_m shr_r shr_s] in *.
  destruct r, s; cbn [loc_of_shr_record round_nearest_even].
  - assert (P <= 2 * rem) by now apply Hr.
    assert (rem <> 0 /\ 2 * rem <> P) by now apply Hs.
    repeat split; try nia.
  - assert (P <= 2 * rem) by now apply Hr.
    assert (~ (rem <> 0 /\ 2 * rem <> P)) by (rewrite <- Hs; discriminate).
    assert (2 * rem = P) by lia.
    destruct (Z.even m) eqn:Heven.
    + repeat split; try nia. intros _. exact Heven.
    + repeat split; try nia. intros _.
      rewrite Z.even_add, Heven. reflexivity.
  - assert (~ P <= 2 * rem) by (rewrite <- Hr; discriminate).
    repeat split; try nia.
  - assert (~ P <= 2 * rem) by (rewrite <- Hr; discriminate).
    assert (~ (rem <> 0 /\ 2 * rem <> P)) by (rewrite <- Hs; discriminate).
    assert (rem = 0) by lia.
    repeat split; try nia.
Qed.

Lemma Zdigits2_unique (m n : Z) :
  0 < n -> 2 ^ (n - 1) <= m < 2 ^ n -> Zdigits2 m = n.
Proof.
  intros Hn [Hlow Hhigh].
  assert (Hm : 0 < m).
  { eapply Z.lt_le_trans; [| exact Hlow]. apply Z.pow_pos_nonneg; lia. }
  pose proof (Zdigits2_le m n ltac:(lia) ltac:(lia) Hhigh) as Hle.
  pose proof (Zdigits2_upper m ltac:(lia)) as Hupper.
  destruct (Z_lt_le_dec (Zdigits2 m) n) as [Hlt|Hge]; [| lia].
  assert (2 ^ Zdigits2 m <= 2 ^ (n - 1)).
  { apply Z.pow_le_mono_r; [lia |]. lia. }
  lia.
Qed.

Lemma shr_fexp_noop (m e : Z) (l : location) :
  fexp prec emax (Zdigits2 m + e) - e <= 0 ->
  shr_fexp prec emax m e l = (shr_record_of_loc m l, e).
Proof.
  intros Hn. unfold shr_fexp, shr.
  destruct (fexp prec emax (Zdigits2 m + e) - e); [reflexivity | lia | reflexivity].
Qed.

Lemma shr_fexp_shift (m e : Z) (l : location) (n : positive) :
  fexp prec emax (Zdigits2 m + e) - e = Zpos n ->
  shr_fexp prec emax m e l =
  (SpecFloat.iter_pos shr_1 n (shr_record_of_loc m l), e + Zpos n).
Proof. intros Hn. unfold shr_fexp, shr. now rewrite Hn. Qed.

(** A mantissa of exactly 53 digits within the exponent range is kept. *)
Lemma binary_round_aux_exact (s : bool) (p : positive) (e : Z) :
  Zdigits2 (Zpos p) = prec ->
  emin <= e <= emax - prec ->
  binary_round_aux prec emax s (Zpos p) e loc_Exact = S754_finite s p e.
Proof.
  intros Hdigits He. unfold binary_round_aux.
  assert (Hn : fexp prec emax (Zdigits2 (Zpos p) + e) - e <= 0).
  { rewrite Hdigits. revert He. unfold fexp, SpecFloat.emin, prec, emax. lia. }
  rewrite (shr_fexp_noop _ _ _ Hn).
  cbn [shr_record_of_loc shr_m loc_of_shr_record round_nearest_even].
  rewrite (shr_fexp_noop _ _ _ Hn). cbn [shr_record_of_loc shr_m].
  assert (Hfit : (e <=? emax - prec) = true) by (apply Z.leb_le; lia).
  now rewrite Hfit.
Qed.

(** Past 53 digits the integer is shifted down and rounded. *)
Lemma binary_round_aux_rounds (p : positive) (f : spec_float) :
  prec < Zdigits2 (Zpos p) ->
  binary_round_aux prec emax false (Zpos p) 0 loc_Exact = f ->
  (forall s, f <> S754_infinity s) ->
  nearest_binary64 (Zpos p) f.
Proof.
  intros Hdigits Hround Hfinite.
  pose proof (digits2_pos_bound p) as Hlow.
  pose proof (digits2_pos_upper p) as Hhigh.
  cbn [Zdigits2] in Hdigits.
  set (d := Zpos (digits2_pos p)) in *.
  assert (Hn : exists n, d - 53 = Zpos n)
    by (unfold prec in Hdigits; destruct (d - 53) as [|n|n] eqn:E;
        [lia | now exists n | lia]).
  destruct Hn as [n Hn].
  assert (Hn1 : fexp prec emax (Zdigits2 (Zpos p) + 0) - 0 = Zpos n).
  { cbn [Zdigits2]. fold d. revert Hn Hdigits.
    unfold fexp, SpecFloat.emin, prec, emax. lia. }
  unfold binary_round_aux in Hround.
  rewrite (shr_fexp_shift _ _ _ _ Hn1) in Hround.
  pose proof (shifted_iter (Zpos p) n 0 _ ltac:(lia)
                (shifted_start (Zpos p) ltac:(lia))) as Hshifted.
  rewrite Z.add_0_l in Hshifted, Hround.
  set (mrs := SpecFloat.iter_pos shr_1 n
                (shr_record_of_loc (Zpos p) loc_Exact)) in *.
  pose proof (round_shifted (Zpos p) (Zpos n) mrs ltac:(lia) Hshifted)
    as (Hnear & Herr & Htie & _).
  destruct Hshifted as (rem & Hrem & Hm & Hsplit & _).
  set (m1 := round_nearest_even (shr_m mrs) (loc_of_shr_record mrs)) in *.
  assert (Hpow : 0 < 2 ^ Zpos n) by (apply Z.pow_pos_nonneg; lia).
  assert (Hd : 2 ^ (d - 1) = 2 ^ 52 * 2 ^ Zpos n)
    by (rewrite <- Z.pow_add_r by lia; f_equal; lia).
  assert (Hd' : 2 ^ d = 2 ^ 53 * 2 ^ Zpos n)
    by (rewrite <- Z.pow_add_r by lia; f_equal; lia).
  assert (Hquot : 2 ^ 52 <= shr_m mrs < 2 ^ 53) by nia.
  assert (Hm1 : 2 ^ 52 <= m1 <= 2 ^ 53) by lia.
  destruct (Z.eq_dec m1 (2 ^ 53)) as [Hcarry|Hnocarry].
  - (* the rounding carried: one more shift, exact *)
    rewrite Hcarry in Hround.
    assert (Hn2 : fexp prec emax (Zdigits2 (2 ^ 53) + Z.pos n) - Z.pos n = 1).
    { change (Zdigits2 (2 ^ 53)) with 54.
      unfold fexp, SpecFloat.emin, prec, emax. lia. }
    rewrite (shr_fexp_shift _ _ _ 1 Hn2) in Hround.
    cbn [SpecFloat.iter_pos shr_record_of_loc shr_1 shr_m] in Hround.
    change (2 ^ 53) with (Z.pos (4503599627370496~0)) in Hround.
    cbn [shr_1 shr_m] in Hround.
    destruct (Z.pos n + 1 <=? emax - prec) eqn:Hfit;
      [| subst f; now destruct (Hfinite false)].
    subst f. exists 4503599627370496%positive, (Zpos n + 1).
    split; [reflexivity |]. split; [reflexivity |].
    split; [lia |]. intros _.
    rewrite Z.pow_add_r, Z.pow_1_r by lia.
    change (Z.pos 4503599627370496) with (2 ^ 52).
    rewrite Hcarry in Herr.
    replace (2 ^ 52 * (2 ^ Z.pos n * 2)) with (2 ^ 53 * 2 ^ Z.pos n)
      by (change (2 ^ 53) with (2 ^ 52 * 2); lia).
    split; [lia |]. split; [lia |]. intros _. reflexivity.
  - (* no carry: the rounded mantissa has 53 digits *)
    assert (Hd1 : Zdigits2 m1 = 53)
      by (apply Zdigits2_unique; [lia | change (53 - 1) with 52; lia]).
    assert (Hn2 : fexp prec emax (Zdigits2 m1 + Z.pos n) - Z.pos n <= 0).
    { rewrite Hd1. unfold fexp, SpecFloat.emin, prec, emax. lia. }
    rewrite (shr_fexp_noop _ _ _ Hn2) in Hround.
    cbn [shr_record_of_loc shr_m] in Hround.
    destruct m1 as [|q|q] eqn:Eq; try lia.
    destruct (Z.pos n <=? emax - prec) eqn:Hfit;
      [| subst f; now destruct (Hfinite false)].
    subst f. exists q, (Zpos n).
    split; [reflexivity |]. split; [lia |].
    split; [lia |]. intros _.
    split; [lia |]. split; [exact Herr | exact Htie].
Qed.

(** Rounding a positive integer at exponent 0: below 53 digits it is
    shifted up and kept, at 53 digits kept, above shifted down and
    rounded. *)
Lemma binary_round_nearest (p : positive) (f : spec_float) :
  binary_round prec emax false p 0 = f ->
  (forall s, f <> S754_infinity s) ->
  nearest_binary64 (Zpos p) f.
Proof.
  intros Hf Hfinite. unfold binary_round, shl_align in Hf.
  pose proof (digits2_pos_bound p) as Hlow.
  pose proof (digits2_pos_upper p) as Hhigh.
  set (d := Zpos (digits2_pos p)) in *.
  assert (Hfexp : fexp prec emax (d + 0) = d - 53)
    by (subst d; unfold fexp, SpecFloat.emin, prec, emax; lia).
  rewrite Hfexp in Hf.
  destruct (d - 53 - 0) as [|k|k] eqn:Ek.
  - (* 53 digits *)
    assert (Hd : d = 53) by lia.
    rewrite binary_round_aux_exact in Hf;
      [ | cbn [Zdigits2]; fold d; exact Hd
        | unfold SpecFloat.emin, prec, emax; lia ].
    subst f. exists p, 0.
    split; [reflexivity |]. split; [rewrite <- Hd at 1; exact Hhigh |].
    split; [intros _; cbn; lia | lia].
  - (* more than 53 digits *)
    apply binary_round_aux_rounds; [| exact Hf | exact Hfinite].
    cbn [Zdigits2]. fold d. unfold prec. lia.
  - (* fewer than 53 digits *)
    assert (Hk : Zpos k = 53 - d) by lia.
    replace (d - 53) with (Z.neg k) in Hf by lia.
    assert (Hshift : Zpos (Pos.iter xO p k) = 2 ^ Zpos k * Zpos p)
      by (change (Pos.iter xO p k) with (shift_pos k p);
          now rewrite shift_pos_correct, Z.pow_pos_fold).
    assert (Hpk : 0 < 2 ^ Zpos k) by (apply Z.pow_pos_nonneg; lia).
    assert (H52 : 2 ^ 52 = 2 ^ Zpos k * 2 ^ (d - 1))
      by (rewrite <- Z.pow_add_r by (subst d; lia); f_equal; lia).
    assert (H53 : 2 ^ 53 = 2 ^ Zpos k * 2 ^ d)
      by (rewrite <- Z.pow_add_r by (subst d; lia); f_equal; lia).
    rewrite binary_round_aux_exact in Hf;
      [ | apply Zdigits2_unique; [unfold prec; lia |];
          unfold prec; change (53 - 1) with 52; nia
        | unfold SpecFloat.emin, prec, emax; lia ].
    subst f. exists (Pos.iter xO p k), (Z.neg k).
    split; [reflexivity |]. split; [nia |].
    split; [| lia]. intros _.
    replace (- Z.neg k) with (Zpos k) by lia. lia.
Qed.

(** The conversion of a positive integer gives the nearest binary64
    value, ties to even: the value the standard library's
    [binary_normalize] computes. *)
Lemma float_of_int_nearest (z : Z) (f : spec_float) :
  0 < z ->
  Universal.float_of_int z = Return f ->
  f = binary_normalize prec emax z 0 false /\ nearest_binary64 z f.
Proof.
  intros Hz Hf. destruct z as [|p|p]; try lia.
  unfold Universal.float_of_int in Hf.
  assert (Heq : f = binary_normalize prec emax (Z.pos p) 0 false)
    by (destruct (binary_normalize prec emax (Z.pos p) 0 false);
        congruence).
  split; [exact Heq |].
  apply binary_round_nearest; [now rewrite Heq |].
  intros s ->. rewrite <- Heq in Hf. discriminate Hf.
Qed.

(** C8.  Whenever the analysis returns a success record, its fee is the
    binary64 value of [amount_in * fee / 10 ** decimals]: the input amount
    of the record (strictly positive) converted to a float, multiplied by
    the fee rate of the pool that emitted the selected event, divided by
    the power of ten of the decimals of the route's first token.  The two
    converted integers are the binary64 values nearest to [amount_in] and
    to [10 ** decimals], ties to even, as the library's [binary_normalize]
    gives them.  If the fee rate is [>= 0], so is the fee. *)
Theorem lp_fee_paid_formula_and_sign :
  forall (codec : Universal.RouterCodec) (web3 : Web3) (tx : Tx)
         (tx_hash : string) (tx_receipt : TxReceipt) (s : TradeSuccess),
    Universal.analyse_trade_by_receipt codec web3 tx tx_hash tx_receipt
    = Return (Success s) ->
    exists events event pool path_first in_token a d,
      get_tx_events web3 tx_hash = Return events /\
      Phases.select_swap_event tx_receipt events = Return event /\
      fetch_pool_details web3 (Event.address event) = Return pool /\
      index_first (path s) = Return path_first /\
      fetch_erc20_details web3 path_first = Return in_token /\
      amount_in_decimals s = Token.decimals in_token /\
      0 < amount_in s /\
      Universal.float_of_int (amount_in s) = Return a /\
      Universal.float_of_int (10 ^ Z.of_N (amount_in_decimals s)) = Return d /\
      lp_fee_paid s = SF64div (SF64mul a (Pool.fee pool)) d /\
      (nonneg_float (Pool.fee pool) -> nonneg_float (lp_fee_paid s)) /\
      a = binary_normalize prec emax (amount_in s) 0 false /\
      nearest_binary64 (amount_in s) a /\
      d = binary_normalize prec emax (10 ^ Z.of_N (amount_in_decimals s)) 0 false /\
      nearest_binary64 (10 ^ Z.of_N (amount_in_decimals s)) d.
Proof.
  intros codec web3 tx tx_hash tx_receipt s Hrun.
  apply analyse_Success_inv in Hrun
    as (route & min_out & events & event & _ & Hevents & Hevent & Hbuilt).
  pose proof (get_v3_by_event_fee _ _ _ _ _ _ _ Hbuilt)
    as (pool & path_first & in_token & a & d & Hpool & Hfirst & Hin & Hdec
        & Hpos & Ha & Hd & Hfee & Hsign).
  assert (Hpath : path s = route).
  { unfold Universal.get_v3_by_event in Hbuilt. cbn zeta in Hbuilt.
    repeat (apply bind_Return_inv in Hbuilt as (? & _ & Hbuilt)).
    now injection Hbuilt as <-. }
  assert (Hten : 0 < 10 ^ Z.of_N (Token.decimals in_token))
    by (apply Z.pow_pos_nonneg; lia).
  destruct (float_of_int_nearest _ _ Hpos Ha) as (Ha_eq & Ha_near).
  destruct (float_of_int_nearest _ _ Hten Hd) as (Hd_eq & Hd_near).
  exists events, event, pool, path_first, in_token, a, d.
  rewrite Hpath, Hdec.
  repeat (split; [first [assumption | reflexivity] |]). exact Hd_near.
Qed.

(** A swap of 2500.000001 USDC (6 decimals) through a pool of rate 0.0005:
    the fee is the quotient by the float of [10 ^ 6] of the product of the
    float of 2500000001 with the rate, which is 1.2500000005, and it is
    [>= 0]. *)
Lemma lp_fee_paid_formula_and_sign_witness :
  Universal.analyse_trade_by_receipt MoreSamples.codec MoreSamples.provider
    (Samples.tx_to Samples.other_address) Samples.tx_hash (Samples.receipt 1)
  = Return (Success MoreSamples.swapped) /\
  lp_fee_paid MoreSamples.swapped
  = SF64div
      (SF64mul (S754_finite false 5242880002097152 (-21))
         (Pool.fee Samples.pool))
      (S754_finite false 8589934592000000 (-33)) /\
  lp_fee_paid MoreSamples.swapped = S754_finite false 5629499536464920 (-52) /\
  nearest_binary64 2500000001 (S754_finite false 5242880002097152 (-21)) /\
  nearest_binary64 1000000 (S754_finite false 8589934592000000 (-33)) /\
  nonneg_float (lp_fee_paid MoreSamples.swapped).
Proof.
  assert (Hrun :
    Universal.analyse_trade_by_receipt MoreSamples.codec MoreSamples.provider
      (Samples.tx_to Samples.other_address) Samples.tx_hash (Samples.receipt 1)
    = Return (Success MoreSamples.swapped))
    by (vm_compute; reflexivity).
  split; [exact Hrun |].
  destruct (lp_fee_paid_formula_and_sign _ _ _ _ _ _ Hrun)
    as (events & event & pool & path_first & in_token & a & d
        & _ & _ & Hpool & _ & _ & _ & _ & _ & _ & Hfee & Hsign
        & Ha & Ha_near & Hd & Hd_near).
  apply Return_inj in Hpool. subst pool.
  assert (Ea : a = S754_finite false 5242880002097152 (-21))
    by (rewrite Ha; vm_compute; reflexivity).
  assert (Ed : d = S754_finite false 8589934592000000 (-33))
    by (rewrite Hd; vm_compute; reflexivity).
  rewrite Ea in Hfee, Ha_near. rewrite Ed in Hfee, Hd_near.
  split; [exact Hfee |].
  split; [reflexivity |].
  split; [exact Ha_near |].
  split; [exact Hd_near |].
  apply Hsign. reflexivity.
Defined.
